(** * Lucky Paw Spin: a shallow embedding of [spin.py]

    The script is sequential: parse the flags, consult the eligibility gate
    ([should_spin]), drive a browser through the loyalty page
    ([perform_spin]), write the state file ([save_last_spin]) and leave with a
    status code ([main]).

    Conventions of the embedding.
    - Python exceptions are values of [exn]; a call that may raise returns a
      [result].
    - Instants and durations are integers counting microseconds, which is
      the resolution of [datetime] and [timedelta].
    - The state file, the environment variable, the clock, the random
      generator and the browser are inputs of the run, gathered in [Env];
      every call into the browser library answers with the outcome recorded
      in a [Session].
    - The page is taken as it stands when it is searched: a locator
      resolves to the same elements each time the script uses it.
    - [print] statements are diagnostics without influence on control flow
      and are not modelled.  [page.wait_for_timeout] is taken to return. *)

From Stdlib Require Import ZArith List String Ascii Bool Lia QArith Qround.
Import ListNotations.

Local Open Scope string_scope.
Local Open Scope Z_scope.

(** ** Exceptions and fallible calls *)

(** The exception classes the script meets.  Every one of them derives from
    Python's [Exception], so [except Exception] catches them all. *)
Inductive exn_class : Type :=
| Exception           (* raised by the script itself *)
| PlaywrightTimeout   (* playwright.sync_api.TimeoutError *)
| PlaywrightError     (* any other playwright error *)
| ValueError
| TypeError
| AttributeError
| JSONDecodeError
| UnicodeDecodeError
| OSError.

Record exn : Type := mkExn { exn_cls : exn_class; exn_msg : string }.

(** [str(e)] *)
Definition str_of_exn (e : exn) : string := exn_msg e.

Inductive result (A : Type) : Type :=
| Ok (a : A)
| Raise (e : exn).
Arguments Ok {A} a.
Arguments Raise {A} e.

Definition bind {A B : Type} (r : result A) (k : A -> result B) : result B :=
  match r with
  | Ok a => k a
  | Raise e => Raise e
  end.

Notation "x <- r ;; k" := (bind r (fun x => k))
  (at level 61, r at next level, right associativity).
Notation "r ;;; k" := (bind r (fun _ => k))
  (at level 61, right associativity).

(** [try: body  finally: cleanup]: the cleanup always runs, and an exception
    it raises replaces the outcome of the body. *)
Definition try_finally {A : Type} (body : result A) (cleanup : result unit)
  : result A :=
  match cleanup with
  | Ok _ => body
  | Raise e' => Raise e'
  end.

(** ** Strings *)

Definition lower_ascii (c : ascii) : ascii :=
  let n := nat_of_ascii c in
  if (65 <=? n)%nat && (n <=? 90)%nat then ascii_of_nat (n + 32) else c.

(** [s.lower()] on ASCII text. *)
Fixpoint lower (s : string) : string :=
  match s with
  | EmptyString => EmptyString
  | String c t => String (lower_ascii c) (lower t)
  end.

(** [needle in hay] *)
Fixpoint contains (needle hay : string) : bool :=
  if String.prefix needle hay then true
  else match hay with
       | EmptyString => false
       | String _ t => contains needle t
       end.

(** Truthiness of an optional string: [None] and [""] are false. *)
Definition truthy (o : option string) : bool :=
  match o with
  | None => false
  | Some EmptyString => false
  | Some _ => true
  end.

(** [str(x)] inside an f-string, for a value that is a string or [None]. *)
Definition fmt (o : option string) : string :=
  match o with
  | None => "None"
  | Some s => s
  end.

(** ** Time: [datetime] and [timedelta] *)

(** A [timedelta], in microseconds. *)
Definition timedelta : Type := Z.

(** A [datetime]: the wall-clock fields, as microseconds since
    1970-01-01T00:00:00 on that wall clock, and the UTC offset in
    microseconds when the value is timezone-aware. *)
Record datetime : Type := mkDatetime {
  dt_wall : Z;
  dt_utcoffset : option Z
}.

(** The instant of an aware datetime on the UTC time line. *)
Definition utc_instant (wall offset : Z) : Z := wall - offset.

(** [datetime.now(timezone.utc)] when the clock reads [now]. *)
Definition now_utc (now : Z) : datetime := mkDatetime now (Some 0).

(** [a - b] on datetimes. *)
Definition datetime_sub (a b : datetime) : result timedelta :=
  match dt_utcoffset a, dt_utcoffset b with
  | Some oa, Some ob => Ok (utc_instant (dt_wall a) oa - utc_instant (dt_wall b) ob)
  | None, None => Ok (dt_wall a - dt_wall b)
  | _, _ => Raise (mkExn TypeError "can't subtract offset-naive and offset-aware datetimes")
  end.

Definition round_half_even (x : Q) : Z :=
  let f := Qfloor x in
  match Qcompare (x - inject_Z f) (1 # 2) with
  | Lt => f
  | Gt => f + 1
  | Eq => if Z.even f then f else f + 1
  end.

(** [timedelta(hours=h)]: the duration is rounded to the nearest microsecond,
    ties to even.  The hours are an exact rational here; 24.25 is a binary
    fraction, so the float of the source denotes exactly that rational. *)
Definition timedelta_hours (h : Q) : timedelta :=
  round_half_even (h * 3600000000).

(** *** Calendar arithmetic for the ISO text of a datetime *)

Definition us_per_second : Z := 1000000.
Definition us_per_minute : Z := 60 * us_per_second.
Definition us_per_hour : Z := 60 * us_per_minute.
Definition us_per_day : Z := 24 * us_per_hour.

(** Days from 1970-01-01 to the given date of the proleptic Gregorian
    calendar. *)
Definition days_from_civil (y m d : Z) : Z :=
  let y' := if m <=? 2 then y - 1 else y in
  let era := y' / 400 in
  let yoe := y' - era * 400 in
  let doy := (153 * (if 2 <? m then m - 3 else m + 9) + 2) / 5 + d - 1 in
  let doe := yoe * 365 + yoe / 4 - yoe / 100 + doy in
  era * 146097 + doe - 719468.

Definition civil_from_days (z : Z) : Z * Z * Z :=
  let z' := z + 719468 in
  let era := z' / 146097 in
  let doe := z' - era * 146097 in
  let yoe := (doe - doe / 1460 + doe / 36524 - doe / 146096) / 365 in
  let doy := doe - (365 * yoe + yoe / 4 - yoe / 100) in
  let mp := (5 * doy + 2) / 153 in
  let d := doy - (153 * mp + 2) / 5 + 1 in
  let m := if mp <? 10 then mp + 3 else mp - 9 in
  let y := yoe + era * 400 in
  (if m <=? 2 then y + 1 else y, m, d).

Definition is_leap (y : Z) : bool :=
  (y mod 4 =? 0) && (negb (y mod 100 =? 0) || (y mod 400 =? 0)).

Definition days_in_month (y m : Z) : Z :=
  if m =? 2 then (if is_leap y then 29 else 28)
  else if (m =? 4) || (m =? 6) || (m =? 9) || (m =? 11) then 30
  else 31.

Definition digit_char (d : Z) : ascii := ascii_of_nat (48 + Z.to_nat d).

(** The decimal text of [n] on exactly [width] digits, zero padded. *)
Fixpoint zero_padded (width : nat) (n : Z) : string :=
  match width with
  | O => EmptyString
  | S w => zero_padded w (n / 10) ++ String (digit_char (n mod 10)) EmptyString
  end.

Definition offset_text (off : Z) : string :=
  let a := Z.abs off in
  (if off <? 0 then "-" else "+")
    ++ zero_padded 2 (a / us_per_hour) ++ ":"
    ++ zero_padded 2 ((a mod us_per_hour) / us_per_minute).

(** Model of the library's [datetime.isoformat()]:
    [YYYY-MM-DDTHH:MM:SS[.ffffff][+HH:MM]], the fraction being left out when
    it is zero (offsets are whole minutes). *)
Definition py_isoformat (dt : datetime) : string :=
  let days := dt_wall dt / us_per_day in
  let tod := dt_wall dt mod us_per_day in
  let '(y, m, d) := civil_from_days days in
  let us := tod mod us_per_second in
  zero_padded 4 y ++ "-" ++ zero_padded 2 m ++ "-" ++ zero_padded 2 d ++ "T"
    ++ zero_padded 2 (tod / us_per_hour) ++ ":"
    ++ zero_padded 2 ((tod mod us_per_hour) / us_per_minute) ++ ":"
    ++ zero_padded 2 ((tod mod us_per_minute) / us_per_second)
    ++ (if us =? 0 then "" else "." ++ zero_padded 6 us)
    ++ match dt_utcoffset dt with
       | None => ""
       | Some off => offset_text off
       end.

Definition digit_value (c : ascii) : option Z :=
  let n := nat_of_ascii c in
  if (48 <=? n)%nat && (n <=? 57)%nat then Some (Z.of_nat (n - 48)) else None.

(** Reads exactly [width] decimal digits. *)
Fixpoint read_digits (width : nat) (acc : Z) (s : string) : option (Z * string) :=
  match width with
  | O => Some (acc, s)
  | S w =>
      match s with
      | EmptyString => None
      | String c t =>
          match digit_value c with
          | Some d => read_digits w (10 * acc + d) t
          | None => None
          end
      end
  end.

Definition expect (c : ascii) (s : string) : option string :=
  match s with
  | String c' t => if Ascii.eqb c c' then Some t else None
  | EmptyString => None
  end.

Definition opt_bind {A B : Type} (o : option A) (k : A -> option B) : option B :=
  match o with
  | Some a => k a
  | None => None
  end.

Notation "' p <-? o ;; k" := (opt_bind o (fun p => k))
  (at level 61, p pattern, o at next level, right associativity).

(** [YYYY-MM-DD] *)
Definition read_date (s : string) : option (Z * string) :=
  '(y, s) <-? read_digits 4 0 s ;;
  's <-? expect "-" s ;;
  '(m, s) <-? read_digits 2 0 s ;;
  's <-? expect "-" s ;;
  '(d, s) <-? read_digits 2 0 s ;;
  if (1 <=? y) && (1 <=? m) && (m <=? 12) && (1 <=? d) && (d <=? days_in_month y m)
  then Some (days_from_civil y m d * us_per_day, s)
  else None.

(** [HH:MM:SS] followed by an optional fraction of three or six digits. *)
Definition read_time (s : string) : option (Z * string) :=
  '(h, s) <-? read_digits 2 0 s ;;
  's <-? expect ":" s ;;
  '(mi, s) <-? read_digits 2 0 s ;;
  's <-? expect ":" s ;;
  '(sec, s) <-? read_digits 2 0 s ;;
  if (h <=? 23) && (mi <=? 59) && (sec <=? 59) then
    let base := h * us_per_hour + mi * us_per_minute + sec * us_per_second in
    match s with
    | String "." t =>
        match read_digits 6 0 t with
        | Some (us, t') => Some (base + us, t')
        | None =>
            match read_digits 3 0 t with
            | Some (ms, t') => Some (base + ms * 1000, t')
            | None => None
            end
        end
    | _ => Some (base, s)
    end
  else None.

(** Nothing (a naive datetime) or [+HH:MM] / [-HH:MM], up to the end. *)
Definition read_offset (s : string) : option (option Z) :=
  match s with
  | EmptyString => Some None
  | String c t =>
      if Ascii.eqb c "+" || Ascii.eqb c "-" then
        '(h, t) <-? read_digits 2 0 t ;;
        't <-? expect ":" t ;;
        '(mi, t) <-? read_digits 2 0 t ;;
        match t with
        | EmptyString =>
            if (h <=? 23) && (mi <=? 59) then
              let off := h * us_per_hour + mi * us_per_minute in
              Some (Some (if Ascii.eqb c "-" then - off else off))
            else None
        | _ => None
        end
      else None
  end.

Definition parse_iso (s : string) : option datetime :=
  '(day, s) <-? read_date s ;;
  match s with
  | EmptyString => Some (mkDatetime day None)
  | String _ t =>
      '(tod, t) <-? read_time t ;;
      'off <-? read_offset t ;;
      Some (mkDatetime (day + tod) off)
  end.

(** Model of the library's [datetime.fromisoformat]: it reads
    [YYYY-MM-DD] and [YYYY-MM-DD*HH:MM:SS[.fff[fff]][+HH:MM]], the texts
    [isoformat] writes, and raises [ValueError] on anything else. *)
Definition py_fromisoformat (s : string) : result datetime :=
  match parse_iso s with
  | Some dt => Ok dt
  | None => Raise (mkExn ValueError ("Invalid isoformat string: '" ++ s ++ "'"))
  end.

(** ** Module constants *)

(** [SPIN_INTERVAL_HOURS = 24.25] *)
Definition SPIN_INTERVAL_HOURS : Q := 24.25.

Definition EMAIL_INPUT_SELECTORS : list string :=
  [ "#email_input_text" ].

Definition SPIN_BUTTON_SELECTORS : list string :=
  [ "#spin-button";
    "button:has-text('SPIN')";
    "button[type='submit']";
    "input[type='submit']";
    "[class*='spin' i] button" ].

(** ** The state file *)

(** What [json.load] builds. *)
#[local] Set Warnings "-register-all".
Inductive json : Type :=
| JNull
| JBool (b : bool)
| JNum (n : Z)
| JStr (s : string)
| JList (items : list json)
| JObj (members : list (string * json)).
#[local] Set Warnings "register-all".

(** The file [last_spin.json] when it exists: a JSON document; text that
    [json.load] rejects; bytes that do not decode as text; or a file that
    [open] or the reading refuses with [e] (no permission, a directory). *)
Inductive file_content : Type :=
| Document (j : json)
| NotJson (raw : string)
| Undecodable
| Unreadable (e : exn).

(** The value of the last member named [key]: [json.load] keeps the last of
    repeated names. *)
Fixpoint lookup (key : string) (members : list (string * json)) : option json :=
  match members with
  | [] => None
  | (k, v) :: rest =>
      match lookup key rest with
      | Some v' => Some v'
      | None => if String.eqb k key then Some v else None
      end
  end.

(** [data.get(key)]: a missing key reads as [None], the value of JSON's
    [null]; [data] need not be a dictionary. *)
Definition dict_get (data : json) (key : string) : result json :=
  match data with
  | JObj members =>
      match lookup key members with
      | Some v => Ok v
      | None => Ok JNull
      end
  | _ => Raise (mkExn AttributeError "object has no attribute 'get'")
  end.

Definition load_last_spin (file : option file_content) : result json :=
  match file with
  | Some (Document j) => Ok j
  | Some (NotJson _) => Raise (mkExn JSONDecodeError "Expecting value")
  | Some Undecodable =>
      Raise (mkExn UnicodeDecodeError "codec can't decode byte: invalid start byte")
  | Some (Unreadable e) => Raise e
  | None => Ok (JObj [("last_spin", JNull); ("result", JNull)])
  end.

Definition json_of_result (r : option string) : json :=
  match r with
  | Some s => JStr s
  | None => JNull
  end.

(** ** The random generator *)

(** The generator is the sequence of indices it will draw. *)
Definition rng : Type := list nat.

Definition ascii_lowercase : string := "abcdefghijklmnopqrstuvwxyz".
Definition digits : string := "0123456789".

Definition pick (population : string) (i : nat) : string :=
  match String.get (i mod String.length population) population with
  | Some c => String c EmptyString
  | None => EmptyString
  end.

(** [random.choices(population, k=k)], with the generator it leaves. *)
Definition choices (population : string) (k : nat) (g : rng) : list string * rng :=
  (map (pick population) (firstn k g), skipn k g).

(** [generate_random_email()] *)
Definition generate_random_email (g : rng) : string * rng :=
  let '(chars, g') := choices (ascii_lowercase ++ digits)%string 10 g in
  let random_str := String.concat "" chars in
  ("ginaf97689@noihse.com", g').

(** ** The browser *)

(** An element a locator resolved to, with the outcome of each call the
    script makes on it. *)
Record Element : Type := mkElement {
  el_id : nat;
  el_is_visible : result bool;              (* [.is_visible()] *)
  el_wait_for_visible : result unit;        (* [.wait_for(state="visible", timeout=10000)] *)
  el_fill : string -> result unit;          (* [.fill(email)] *)
  el_click : result unit                    (* [.click()] *)
}.

(** A frame of the page: [frame_locate sel] is what
    [frame.locator(sel)] resolves to when counted, in document order, or the
    exception the count raises. *)
Record Frame : Type := mkFrame {
  frame_url : string;
  frame_locate : string -> result (list Element)
}.

(** A browser session: the outcome of every call of [perform_spin] into
    the file system and the browser library.  [ses_frames] is [page.frames]
    as enumerated by the search for the email input. *)
Record Session : Type := mkSession {
  ses_mkdir : result unit;                  (* [SCREENSHOTS_DIR.mkdir(exist_ok=True)] *)
  ses_launch : bool -> result unit;         (* [sync_playwright()], [launch(headless=...)] up to [new_page()] *)
  ses_goto : result unit;                   (* [page.goto(LOYALTY_URL, ...)] *)
  ses_screenshot : string -> result unit;   (* [page.screenshot(path=SCREENSHOTS_DIR / name)] *)
  ses_frames : list Frame;                  (* [page.frames] *)
  ses_header_visible : result bool;         (* [page.locator("#win_header_text").is_visible(...)] *)
  ses_header_text : result (option string); (* its [.text_content()] *)
  ses_win_visible : result bool;            (* [page.locator("#win_text").is_visible(...)] *)
  ses_win_text : result (option string);    (* its [.text_content()] *)
  ses_close : result unit                   (* [browser.close()] *)
}.

(** [if debug: page.screenshot(...)] *)
Definition debug_screenshot (ses : Session) (debug : bool) (name : string)
  : result unit :=
  if debug then ses_screenshot ses name else Ok tt.

(** *** Searching the email input (the loops over [page.frames] and
    [EMAIL_INPUT_SELECTORS]) *)

(** The inner loop: the first selector of [selectors] whose locator counts
    at least one element yields [inputs.first]; a selector whose count
    raises is reported and skipped. *)
Fixpoint first_input_in (frame : Frame) (selectors : list string) : option Element :=
  match selectors with
  | [] => None
  | selector :: rest =>
      match frame_locate frame selector with
      | Ok (first :: _) => Some first
      | Ok [] => first_input_in frame rest
      | Raise _ => first_input_in frame rest
      end
  end.

(** The outer loop, left at the first frame in which the inner loop found
    an element; the pair is ([email_input], [target_frame]). *)
Fixpoint find_email_input (frames : list Frame) (selectors : list string)
  : option (Element * Frame) :=
  match frames with
  | [] => None
  | frame :: rest =>
      match first_input_in frame selectors with
      | Some email_input => Some (email_input, frame)
      | None => find_email_input rest selectors
      end
  end.

(** *** Searching the spin button (the loop over [SPIN_BUTTON_SELECTORS]) *)

(** [btn = target_frame.locator(selector).first]; the test is
    [count > 0 and btn.is_visible()], and an exception from either call is
    reported and the selector skipped. *)
Fixpoint find_spin_button (target_frame : Frame) (selectors : list string)
  : option Element :=
  match selectors with
  | [] => None
  | selector :: rest =>
      match frame_locate target_frame selector with
      | Ok (btn :: _) =>
          match el_is_visible btn with
          | Ok true => Some btn
          | _ => find_spin_button target_frame rest
          end
      | _ => find_spin_button target_frame rest
      end
  end.

(** *** Reading the result text *)

(** The two guarded reads of the prize text: a failure of either is
    reported and leaves [result] as it was. *)
Definition capture_result (ses : Session) : option string :=
  let result :=
    match ses_header_visible ses with
    | Ok true =>
        match ses_header_text ses with
        | Ok header_text => header_text
        | Raise _ => None
        end
    | _ => None
    end in
  match ses_win_visible ses with
  | Ok true =>
      match ses_win_text ses with
      | Ok win_text_content =>
          if truthy result
          then Some (fmt result ++ " - " ++ fmt win_text_content)%string
          else win_text_content
      | Raise _ => result
      end
  | _ => result
  end.

Definition wheel_not_available : exn :=
  mkExn Exception
    "Spin wheel not available - email input not found (wheel may appear after 24 hours)".

Definition no_spin_button : exn :=
  mkExn Exception "Could not find spin/submit button".

(** The body of the [try] block of [perform_spin].  The dismissal of the
    overlay (steps 1a and 1b) wraps every fallible call in a handler that
    carries on, so it always falls through to the search. *)
Definition spin_steps (ses : Session) (email : string) (debug : bool)
  : result (option string) :=
  ses_goto ses ;;;
  debug_screenshot ses debug "debug_01_page_loaded.png" ;;;
  debug_screenshot ses debug "debug_02_after_wait.png" ;;;
  debug_screenshot ses debug "debug_03_popup_closed.png" ;;;
  match find_email_input (ses_frames ses) EMAIL_INPUT_SELECTORS with
  | None =>
      ses_screenshot ses "wheel_not_available.png" ;;;
      Raise wheel_not_available
  | Some (email_input, target_frame) =>
      el_wait_for_visible email_input ;;;
      el_fill email_input email ;;;
      debug_screenshot ses debug "debug_04_email_filled.png" ;;;
      match find_spin_button target_frame SPIN_BUTTON_SELECTORS with
      | None =>
          ses_screenshot ses "error_no_spin_button.png" ;;;
          Raise no_spin_button
      | Some spin_button =>
          el_click spin_button ;;;
          debug_screenshot ses debug "debug_05_after_spin.png" ;;;
          let result := capture_result ses in
          ses_screenshot ses "spin_result.png" ;;;
          Ok result
      end
  end.

(** The two handlers of [perform_spin]: a snapshot named after the kind of
    failure, then the exception is raised again; a failing snapshot raises
    in its place. *)
Definition snapshot_and_reraise {A : Type} (ses : Session) (r : result A)
  : result A :=
  match r with
  | Ok a => Ok a
  | Raise e =>
      let name :=
        match exn_cls e with
        | PlaywrightTimeout => "error_timeout.png"
        | _ => "error_unknown.png"
        end in
      ses_screenshot ses name ;;; Raise e
  end.

(** [perform_spin(email, headless, debug, pause)] *)
Definition perform_spin (ses : Session) (email : string)
    (headless debug : bool) (pause : Z) : result (option string) :=
  ses_mkdir ses ;;;
  ses_launch ses headless ;;;
  try_finally (snapshot_and_reraise ses (spin_steps ses email debug))
              (ses_close ses).

(** ** The gate, the state file and [main] *)

(** The parsed command line. *)
Record Args : Type := mkArgs {
  args_test : bool;
  args_force : bool;
  args_no_headless : bool;
  args_debug : bool;
  args_pause : Z
}.

(** How the [with] statement of [save_last_spin] goes: it completes; or
    [open(LAST_SPIN_FILE, "w")] raises and the file stays as it was; or the
    file is opened, which empties it, and [json.dump] or the closing raises,
    the file then holding [remains] (nothing, or the part of the text that
    reached it). *)
Inductive write_outcome : Type :=
| Written
| OpenFails (e : exn)
| WriteFails (e : exn) (remains : file_content).

(** What a run finds around it. *)
Record Env : Type := mkEnv {
  env_FWP_EMAIL : option string;       (* [os.environ.get("FWP_EMAIL")] *)
  env_state_file : option file_content; (* [LAST_SPIN_FILE], [None] when it does not exist *)
  env_rng : rng;
  env_now_gate : Z;                     (* the clock when [should_spin] reads it *)
  env_now_save : Z;                     (* the clock when [save_last_spin] reads it *)
  env_write : write_outcome;            (* [with open(LAST_SPIN_FILE, "w") as f: json.dump(...)] *)
  env_session : Session
}.

(** The [with] statement of [save_last_spin] as a call that returns or
    raises: the opening, [json.dump] and the closing together. *)
Definition env_open_write (env : Env) : result unit :=
  match env_write env with
  | Written => Ok tt
  | OpenFails e => Raise e
  | WriteFails e _ => Raise e
  end.

(** The same surroundings with another state file and another reading of
    the clock at the gate. *)
Definition with_stored_state (env : Env) (file : option file_content) (now : Z)
  : Env :=
  mkEnv (env_FWP_EMAIL env) file (env_rng env) now (env_now_save env)
        (env_write env) (env_session env).

(** How the process ends. *)
Inductive ending : Type :=
| MissingEmail                 (* [sys.exit(1)]: FWP_EMAIL is not set *)
| Skipped                      (* [sys.exit(0)]: the gate said no *)
| Completed                    (* [main] returns *)
| WheelNotReady (e : exn)      (* [sys.exit(0)] of the handler *)
| SpinFailed (e : exn)         (* [sys.exit(1)] of the handler *)
| Uncaught (e : exn).          (* an exception leaves [main]: traceback *)

(** The status the interpreter hands to the operating system. *)
Definition exit_code (e : ending) : Z :=
  match e with
  | MissingEmail => 1
  | Skipped => 0
  | Completed => 0
  | WheelNotReady _ => 0
  | SpinFailed _ => 1
  | Uncaught _ => 1
  end.

(** A finished run: its ending, the state file it leaves, and the email
    [perform_spin] was called with, if it was called. *)
Record Run : Type := mkRun {
  run_ending : ending;
  run_state_file : option file_content;
  run_attempt : option string
}.

Section Script.

(** The two calls into the [datetime] library. *)
Variable fromisoformat : string -> result datetime.
Variable isoformat : datetime -> string.

(** [should_spin()], reading the interval [hours], the state file and the
    clock. *)
Definition should_spin (hours : Q) (file : option file_content) (now : Z)
  : result bool :=
  data <- load_last_spin file ;;
  last_spin <- dict_get data "last_spin" ;;
  match last_spin with
  | JNull => Ok true
  | JStr text =>
      last_spin_time <- fromisoformat text ;;
      elapsed <- datetime_sub (now_utc now) last_spin_time ;;
      let required := timedelta_hours hours in
      if required <=? elapsed then Ok true else Ok false
  | _ => Raise (mkExn TypeError "fromisoformat: argument must be str")
  end.

(** [save_last_spin(result)] on the state file [file]: the state file it
    leaves, and whether it returns or raises.  When the opening fails the
    file is as it was; once opened with mode ["w"] the old contents are
    gone, whether the writing then completes or not. *)
Definition save_last_spin (write : write_outcome) (file : option file_content)
    (now : Z) (spin_result : option string) : option file_content * result unit :=
  let data :=
    JObj [ ("last_spin", JStr (isoformat (now_utc now)));
           ("result", json_of_result spin_result) ] in
  match write with
  | Written => (Some (Document data), Ok tt)
  | OpenFails e => (file, Raise e)
  | WriteFails e remains => (Some remains, Raise e)
  end.

(** The handler of [main]: [except Exception as e]. *)
Definition classify (e : exn) : ending :=
  let error_msg := str_of_exn e in
  if contains "not available" (lower error_msg)
  then WheelNotReady e
  else SpinFailed e.

(** The email to use: the fixed test address, or FWP_EMAIL when it is set
    and not empty. *)
Definition choose_email (args : Args) (env : Env) : option string :=
  if args_test args then Some (fst (generate_random_email (env_rng env)))
  else match env_FWP_EMAIL env with
       | Some EmptyString => None
       | Some email => Some email
       | None => None
       end.

(** The [try] statement of [main], entered once the gate is passed. *)
Definition attempt_spin (args : Args) (env : Env) (email : string) : Run :=
  let file := env_state_file env in
  match perform_spin (env_session env) email (negb (args_no_headless args))
                     (args_debug args) (args_pause args) with
  | Ok result =>
      if negb (args_test args) then
        match save_last_spin (env_write env) file (env_now_save env) result with
        | (file', Ok _) => mkRun Completed file' (Some email)
        | (file', Raise e) => mkRun (classify e) file' (Some email)
        end
      else mkRun Completed file (Some email)
  | Raise e => mkRun (classify e) file (Some email)
  end.

(** [main()] *)
Definition main (args : Args) (env : Env) : Run :=
  let file := env_state_file env in
  match choose_email args env with
  | None => mkRun MissingEmail file None
  | Some email =>
      if negb (args_force args) && negb (args_test args) then
        match should_spin SPIN_INTERVAL_HOURS file (env_now_gate env) with
        | Ok true => attempt_spin args env email
        | Ok false => mkRun Skipped file None
        | Raise e => mkRun (Uncaught e) file None
        end
      else attempt_spin args env email
  end.

End Script.

(** ** Reference definitions for the searches *)

(** What the test [count > 0] of the email search sees of a frame and a
    selector: the first counted element, if the count succeeds and is
    positive. *)
Definition first_match (frame : Frame) (selector : string) : option Element :=
  match frame_locate frame selector with
  | Ok (first :: _) => Some first
  | _ => None
  end.

(** What the test [count > 0 and btn.is_visible()] of the button search
    sees: the first counted element, if it answers that it is visible. *)
Definition visible_first_match (frame : Frame) (selector : string)
  : option Element :=
  match first_match frame selector with
  | Some btn =>
      match el_is_visible btn with
      | Ok true => Some btn
      | _ => None
      end
  | None => None
  end.

Definition shown (e : Element) : bool :=
  match el_is_visible e with
  | Ok true => true
  | _ => false
  end.

(** The locator in the words of the specification: "the first element that
    (a) matches some candidate, (b) is visible, found by scanning contexts
    outer-to-inner, and within each context scanning candidates in priority
    order; or a distinct not-found result". *)
Fixpoint spec_locate_in (context : Frame) (candidates : list string)
  : option Element :=
  match candidates with
  | [] => None
  | candidate :: rest =>
      match frame_locate context candidate with
      | Ok elements =>
          match find shown elements with
          | Some e => Some e
          | None => spec_locate_in context rest
          end
      | Raise _ => spec_locate_in context rest
      end
  end.

Fixpoint spec_locate (contexts : list Frame) (candidates : list string)
  : option (Element * Frame) :=
  match contexts with
  | [] => None
  | context :: rest =>
      match spec_locate_in context candidates with
      | Some e => Some (e, context)
      | None => spec_locate rest candidates
      end
  end.

(** A scan that stops at the first answer. *)
Fixpoint first_some {A B : Type} (f : A -> option B) (l : list A) : option B :=
  match l with
  | [] => None
  | a :: rest =>
      match f a with
      | Some b => Some b
      | None => first_some f rest
      end
  end.

(** ** Dismissing the modal (step 1a of [perform_spin]) *)

Definition MODAL_CLOSE_BUTTON : string := "button.modal__close".

Definition ANY_CLOSE_BUTTON : string :=
  "button.modal__close, button[aria-label='Close modal']".

(** A frame as the dismissal meets it in [page.frames]: its name and the
    frame. *)
Definition named_frame : Type := (string * Frame)%type.

(** ["rivo" in frame_url.lower() or "rivo" in frame_name.lower()] *)
Definition is_rivo (nf : named_frame) : bool :=
  contains "rivo" (lower (frame_url (snd nf))) || contains "rivo" (lower (fst nf)).

(** The guarded body run on one frame: when the locator counts an element
    and the first one answers that it is visible, it is clicked.  The answer
    is the element [click()] was called on, if any, and whether the click
    returned; an exception anywhere is reported and the loop goes on. *)
Definition click_close (frame : Frame) (selector : string) : option Element * bool :=
  match frame_locate frame selector with
  | Ok (close_btn :: _) =>
      match el_is_visible close_btn with
      | Ok true =>
          (Some close_btn,
           match el_click close_btn with
           | Ok _ => true
           | Raise _ => false
           end)
      | _ => (None, false)
      end
  | _ => (None, false)
  end.

Definition clicked (attempt : option Element) : list Element :=
  match attempt with
  | Some b => [b]
  | None => []
  end.

(** One loop over [page.frames], left at the first click that returns: the
    elements clicked, in order, and [modal_closed]. *)
Fixpoint close_modal_pass (wanted : named_frame -> bool) (selector : string)
    (frames : list named_frame) : list Element * bool :=
  match frames with
  | [] => ([], false)
  | nf :: rest =>
      if wanted nf then
        match click_close (snd nf) selector with
        | (attempt, true) => (clicked attempt, true)
        | (attempt, false) =>
            let '(clicks, modal_closed) := close_modal_pass wanted selector rest in
            ((clicked attempt ++ clicks)%list, modal_closed)
        end
      else close_modal_pass wanted selector rest
  end.

(** Step 1a: the frames of the Rivo widget first, then, if that closed
    nothing, every frame with the wider selector. *)
Definition dismiss_modal (frames : list named_frame) : list Element * bool :=
  let '(clicks, modal_closed) := close_modal_pass is_rivo MODAL_CLOSE_BUTTON frames in
  if modal_closed then (clicks, true)
  else
    let '(more, modal_closed) := close_modal_pass (fun _ => true) ANY_CLOSE_BUTTON frames in
    ((clicks ++ more)%list, modal_closed).

(** ** Reading aids for the properties *)

(** The same session on a page with other frames. *)
Definition with_frames (ses : Session) (frames : list Frame) : Session :=
  mkSession (ses_mkdir ses) (ses_launch ses) (ses_goto ses) (ses_screenshot ses)
            frames
            (ses_header_visible ses) (ses_header_text ses)
            (ses_win_visible ses) (ses_win_text ses) (ses_close ses).

(** The names of the snapshots taken with [--debug]. *)
Definition DEBUG_SCREENSHOTS : list string :=
  [ "debug_01_page_loaded.png"; "debug_02_after_wait.png";
    "debug_03_popup_closed.png"; "debug_04_email_filled.png";
    "debug_05_after_spin.png" ].

(** A state file the gate cannot read whatever the [datetime] library does:
    a file that cannot be opened or read, bytes that do not decode, text
    that is no JSON, a document that is no object, or a [last_spin] that is
    neither null nor a string. *)
Definition state_file_unreadable (content : file_content) : bool :=
  match content with
  | Unreadable _ => true
  | Undecodable => true
  | NotJson _ => true
  | Document (JObj members) =>
      match lookup "last_spin" members with
      | None => false
      | Some JNull => false
      | Some (JStr _) => false
      | Some _ => true
      end
  | Document _ => true
  end.

(** The record [save_last_spin] writes at [now] for a spin that gave
    [spin_result]. *)
Definition fresh_record (isoformat : datetime -> string) (now : Z)
    (spin_result : option string) : file_content :=
  Document (JObj [ ("last_spin", JStr (isoformat (now_utc now)));
                   ("result", json_of_result spin_result) ]).

(** ** Sample inputs *)

Definition wait_timeout : exn :=
  mkExn PlaywrightTimeout "Locator.wait_for: Timeout 10000ms exceeded.".

(** An element that behaves: it can be filled and clicked, and waiting for
    it to be visible succeeds exactly when it is visible. *)
Definition element (id : nat) (visible : bool) : Element :=
  mkElement id (Ok visible)
            (if visible then Ok tt else Raise wait_timeout)
            (fun _ => Ok tt) (Ok tt).

Fixpoint elements_for (selector : string) (dom : list (string * list Element))
  : list Element :=
  match dom with
  | [] => []
  | (s, es) :: rest => if String.eqb s selector then es else elements_for selector rest
  end.

(** A frame whose locators answer from a table. *)
Definition frame_of (url : string) (dom : list (string * list Element)) : Frame :=
  mkFrame url (fun selector => Ok (elements_for selector dom)).

(** A session in which every call succeeds, on the given frames. *)
Definition session_on (frames : list Frame) : Session :=
  mkSession (Ok tt) (fun _ => Ok tt) (Ok tt) (fun _ => Ok tt) frames
            (Ok true) (Ok (Some "CONGRATULATIONS!"))
            (Ok true) (Ok (Some "10% OFF"))
            (Ok tt).

Definition main_frame : Frame :=
  frame_of "https://ferriswheelpress.com/pages/loyalty-lounge" [].

(** The wheel rendered inside the widget's frame. *)
Definition widget_frame : Frame :=
  frame_of "https://widget.example/wheel"
           [ ("#email_input_text", [element 1 true]);
             ("#spin-button", [element 2 true]) ].

Definition wheel_session : Session := session_on [main_frame; widget_frame].

(** The outer document holds a hidden email input, the widget a visible
    one. *)
Definition outer_hidden_frame : Frame :=
  frame_of "https://ferriswheelpress.com/pages/loyalty-lounge"
           [ ("#email_input_text", [element 7 false]) ].

Definition hidden_outer_frames : list Frame := [outer_hidden_frame; widget_frame].

(** The wheel spins but shows no result text. *)
Definition silent_wheel_session : Session :=
  mkSession (Ok tt) (fun _ => Ok tt) (Ok tt) (fun _ => Ok tt)
            [main_frame; widget_frame]
            (Ok false) (Ok None) (Ok false) (Ok None) (Ok tt).

(** No wheel anywhere on the page. *)
Definition no_wheel_session : Session := session_on [main_frame].

(** The email input is there, the button is not. *)
Definition no_button_session : Session :=
  session_on [ frame_of "https://widget.example/wheel"
                        [ ("#email_input_text", [element 1 true]) ] ].

(** The button is disabled and labelled by the page; the click times out
    and the library's call log quotes the element. *)
Definition click_timeout : exn :=
  mkExn PlaywrightTimeout
    "Locator.click: Timeout 30000ms exceeded. Call log: waiting for locator('#spin-button').first - locator resolved to <button disabled id='spin-button'>Not available</button> - element is not enabled".

Definition stuck_button : Element :=
  mkElement 2 (Ok true) (Ok tt) (fun _ => Ok tt) (Raise click_timeout).

Definition stuck_button_session : Session :=
  session_on [ frame_of "https://widget.example/wheel"
                        [ ("#email_input_text", [element 1 true]);
                          ("#spin-button", [stuck_button]) ] ].

(** The page does not load. *)
Definition navigation_failure : exn :=
  mkExn PlaywrightError
    "Page.goto: net::ERR_NAME_NOT_RESOLVED at https://ferriswheelpress.com/pages/loyalty-lounge".

Definition offline_session : Session :=
  mkSession (Ok tt) (fun _ => Ok tt) (Raise navigation_failure) (fun _ => Ok tt)
            [] (Ok false) (Ok None) (Ok false) (Ok None) (Ok tt).

(** A record written on 2024-11-04 at 14:00 UTC, and one an hour before
    the gate's clock of [env_with]. *)
Definition old_record : option file_content :=
  Some (Document (JObj [("last_spin", JStr "2024-11-04T14:00:00+00:00");
                        ("result", JNull)])).

Definition recent_record : option file_content :=
  Some (Document (JObj [("last_spin", JStr "2024-11-05T14:00:00+00:00");
                        ("result", JStr "CONGRATULATIONS!")])).

Definition garbled_record : option file_content :=
  Some (Document (JObj [("last_spin", JStr "yesterday afternoon");
                        ("result", JNull)])).

Definition invalid_text : exn :=
  mkExn ValueError "Invalid isoformat string: 'yesterday afternoon'".

(** 2024-11-04T14:00:00Z and 2024-11-05T15:00:00Z, in microseconds. *)
Definition t_first : Z := 1730728800000000.
Definition t_next_day : Z := 1730818800000000.

Definition env_with (file : option file_content) (ses : Session) : Env :=
  mkEnv (Some "me@example.com") file [3; 14; 15; 9; 2; 6; 5; 35; 8; 9; 7]%nat
        t_next_day (t_next_day + 60 * us_per_second) Written ses.

Definition plain_args : Args := mkArgs false false false false 0.
Definition test_args : Args := mkArgs true false false false 0.
Definition force_args : Args := mkArgs false true false false 0.

(** The page with the Rivo popup over it: the widget's frame holds a close
    button whose click fails, the popup's frame one that works. *)
Definition broken_close : Element :=
  mkElement 11 (Ok true) (Ok tt) (fun _ => Ok tt)
            (Raise (mkExn PlaywrightError "Locator.click: Element is not attached to the DOM")).

Definition popup_frames : list named_frame :=
  [ ("", main_frame);
    ("rivo-widget",
     frame_of "https://widget.example/wheel" [ ("button.modal__close", [broken_close]) ]);
    ("rivo-form-1-iframe",
     frame_of "about:blank" [ ("button.modal__close", [element 12 true]) ]) ].

(** The same surroundings without FWP_EMAIL. *)
Definition env_without_email (file : option file_content) (ses : Session) : Env :=
  mkEnv None file [] t_next_day (t_next_day + 60 * us_per_second) Written ses.

(** A session whose browser does not close. *)
Definition close_failure : exn :=
  mkExn PlaywrightError "Browser.close: Connection closed while reading from the driver".

Definition unclosed_session : Session :=
  mkSession (Ok tt) (fun _ => Ok tt) (Ok tt) (fun _ => Ok tt)
            [main_frame; widget_frame]
            (Ok true) (Ok (Some "CONGRATULATIONS!"))
            (Ok true) (Ok (Some "10% OFF"))
            (Raise close_failure).

(** The disk is full: the state file is opened, hence emptied, and
    [json.dump] raises. *)
Definition disk_full : exn :=
  mkExn OSError "[Errno 28] No space left on device".

Definition env_disk_full (file : option file_content) (ses : Session) : Env :=
  mkEnv (Some "me@example.com") file [] t_next_day
        (t_next_day + 60 * us_per_second) (WriteFails disk_full (NotJson "")) ses.

(** A state file holding a list, and one whose timestamp is a number. *)
Definition list_file : option file_content := Some (Document (JList [])).

Definition numeric_record : option file_content :=
  Some (Document (JObj [("last_spin", JNum 1730728800); ("result", JNull)])).

(** The frame of [no_button_session]. *)
Definition input_only_frame : Frame :=
  frame_of "https://widget.example/wheel" [ ("#email_input_text", [element 1 true]) ].

(** A popup outside the Rivo frames, found by the wider selector only. *)
Definition fallback_frames : list named_frame :=
  [ ("", main_frame);
    ("newsletter",
     frame_of "https://shop.example/popup" [ (ANY_CLOSE_BUTTON, [element 13 true]) ]) ].

(** The surroundings of a second run, an hour after the first. *)
Definition env_an_hour_later (file : option file_content) : Env :=
  mkEnv (Some "me@example.com") file []
        (t_next_day + us_per_hour) (t_next_day + us_per_hour + 60 * us_per_second)
        Written wheel_session.

(** * Properties *)

(** ** Helper lemmas *)

Lemma wheel_not_available_is_recognised :
  contains "not available" (lower (str_of_exn wheel_not_available)) = true.
Proof. reflexivity. Qed.

Lemma no_spin_button_is_not_recognised :
  contains "not available" (lower (str_of_exn no_spin_button)) = false.
Proof. reflexivity. Qed.

(** ** The searches *)

Lemma first_some_spec {A B : Type} (f : A -> option B) (l : list A) :
  match first_some f l with
  | Some b =>
      exists i a, nth_error l i = Some a /\ f a = Some b
                  /\ forall i' a', (i' < i)%nat -> nth_error l i' = Some a' -> f a' = None
  | None => forall a, In a l -> f a = None
  end.
Proof.
  induction l as [|a rest IH]; cbn.
  - intros a [].
  - destruct (f a) as [b|] eqn:Ha.
    + exists 0%nat, a. repeat split; auto. intros i' a' Hlt; inversion Hlt.
    + destruct (first_some f rest) as [b|].
      * destruct IH as (i & x & Hi & Hx & Hbefore).
        exists (S i), x. repeat split; auto.
        intros [|i'] a' Hlt Hnth; cbn in Hnth.
        -- now inversion Hnth; subst.
        -- apply (Hbefore i'); [lia | assumption].
      * intros x [-> | Hin]; auto.
Qed.

Lemma first_input_in_scan (frame : Frame) (selectors : list string) :
  first_input_in frame selectors = first_some (first_match frame) selectors.
Proof.
  induction selectors as [|selector rest IH]; cbn; [reflexivity|].
  unfold first_match at 1.
  destruct (frame_locate frame selector) as [[|first others]|e]; auto.
Qed.

Lemma find_spin_button_scan (target_frame : Frame) (selectors : list string) :
  find_spin_button target_frame selectors
  = first_some (visible_first_match target_frame) selectors.
Proof.
  induction selectors as [|selector rest IH]; cbn; [reflexivity|].
  unfold visible_first_match at 1, first_match.
  destruct (frame_locate target_frame selector) as [[|btn others]|e]; auto.
  destruct (el_is_visible btn) as [[|]|e]; auto.
Qed.

Lemma find_email_input_scan (frames : list Frame) (selectors : list string) :
  find_email_input frames selectors
  = first_some (fun frame =>
                  option_map (fun email_input => (email_input, frame))
                             (first_input_in frame selectors)) frames.
Proof.
  induction frames as [|frame rest IH]; cbn; [reflexivity|].
  destruct (first_input_in frame selectors); cbn; auto.
Qed.

(** When nothing matches, the search for the email input finds nothing. *)
Lemma find_email_input_none (frames : list Frame) (selectors : list string) :
  (forall frame selector,
      In frame frames -> In selector selectors -> first_match frame selector = None) ->
  find_email_input frames selectors = None.
Proof.
  intros Hnone.
  induction frames as [|frame rest IH]; cbn; [reflexivity|].
  assert (Hin : first_input_in frame selectors = None).
  { rewrite first_input_in_scan.
    pose proof (first_some_spec (first_match frame) selectors) as H.
    destruct (first_some (first_match frame) selectors) as [e|]; [|reflexivity].
    destruct H as (j & sel & Hj & Hsel & _).
    rewrite (Hnone frame sel) in Hsel; [discriminate | now left |].
    eapply nth_error_In; eauto. }
  rewrite Hin. apply IH. intros f sel Hf Hsel. apply Hnone; [now right | assumption].
Qed.

(** What a returning [perform_spin] went through. *)
Lemma perform_spin_returns_steps
    (ses : Session) (email : string) (headless debug : bool) (pause : Z)
    (spin_result : option string) :
  perform_spin ses email headless debug pause = Ok spin_result ->
  ses_mkdir ses = Ok tt
  /\ ses_launch ses headless = Ok tt
  /\ ses_goto ses = Ok tt
  /\ (debug = true ->
      forall name, In name DEBUG_SCREENSHOTS -> ses_screenshot ses name = Ok tt)
  /\ (exists email_input target_frame spin_button,
        find_email_input (ses_frames ses) EMAIL_INPUT_SELECTORS
          = Some (email_input, target_frame)
        /\ el_wait_for_visible email_input = Ok tt
        /\ el_fill email_input email = Ok tt
        /\ find_spin_button target_frame SPIN_BUTTON_SELECTORS = Some spin_button
        /\ el_click spin_button = Ok tt)
  /\ ses_screenshot ses "spin_result.png" = Ok tt
  /\ ses_close ses = Ok tt
  /\ spin_result = capture_result ses.
Proof.
  intros Hr. unfold perform_spin, try_finally, snapshot_and_reraise in Hr.
  destruct (ses_mkdir ses) as [[]|e] eqn:Hmkdir; cbn in Hr; [|discriminate].
  destruct (ses_launch ses headless) as [[]|e] eqn:Hlaunch; cbn in Hr; [|discriminate].
  destruct (ses_close ses) as [[]|e] eqn:Hclose; [|discriminate].
  destruct (spin_steps ses email debug) as [r|e] eqn:H.
  2:{ match type of Hr with
      | context [ses_screenshot ses ?name] => destruct (ses_screenshot ses name)
      end; cbn in Hr; discriminate. }
  inversion Hr; subst r. clear Hr.
  unfold spin_steps, debug_screenshot in H.
  destruct (ses_goto ses) as [[]|e] eqn:Hgoto; cbn [bind] in H; [|discriminate].
  assert (Hdebug : forall (name : string) (k : result (option string)),
    ((if debug then ses_screenshot ses name else Ok tt) ;;; k) = Ok spin_result ->
    (debug = true -> ses_screenshot ses name = Ok tt) /\ k = Ok spin_result).
  { intros name k. destruct debug; cbn.
    - destruct (ses_screenshot ses name) as [[]|e]; cbn; [|discriminate]. auto.
    - intros Hk. split; [discriminate | exact Hk]. }
  apply Hdebug in H. destruct H as [H1 H].
  apply Hdebug in H. destruct H as [H2 H].
  apply Hdebug in H. destruct H as [H3 H].
  destruct (find_email_input (ses_frames ses) EMAIL_INPUT_SELECTORS)
    as [[email_input target_frame]|] eqn:Hemail.
  2:{ destruct (ses_screenshot ses "wheel_not_available.png"); cbn [bind] in H; discriminate. }
  destruct (el_wait_for_visible email_input) as [[]|e] eqn:Hwait; cbn [bind] in H;
    [|discriminate].
  destruct (el_fill email_input email) as [[]|e] eqn:Hfill; cbn [bind] in H; [|discriminate].
  apply Hdebug in H. destruct H as [H4 H].
  destruct (find_spin_button target_frame SPIN_BUTTON_SELECTORS)
    as [spin_button|] eqn:Hbutton.
  2:{ destruct (ses_screenshot ses "error_no_spin_button.png"); cbn [bind] in H; discriminate. }
  destruct (el_click spin_button) as [[]|e] eqn:Hclick; cbn [bind] in H; [|discriminate].
  apply Hdebug in H. destruct H as [H5 H].
  destruct (ses_screenshot ses "spin_result.png") as [[]|e] eqn:Hshot; cbn [bind] in H;
    [|discriminate].
  inversion H.
  split; [reflexivity|]. split; [reflexivity|]. split; [reflexivity|].
  split.
  { intros Hd name Hin.
    destruct Hin as [<- | [<- | [<- | [<- | [<- | []]]]]]; auto. }
  split.
  { exists email_input, target_frame, spin_button. repeat split; auto. }
  repeat split; reflexivity.
Qed.

(** What the email search answers: the first frame and, in it, the first
    candidate with an element. *)
Lemma find_email_input_first (frames : list Frame) (selectors : list string) :
  match find_email_input frames selectors with
  | Some (email_input, target_frame) =>
      exists i j selector,
        nth_error frames i = Some target_frame
        /\ nth_error selectors j = Some selector
        /\ first_match target_frame selector = Some email_input
        /\ (forall j' selector',
              (j' < j)%nat -> nth_error selectors j' = Some selector' ->
              first_match target_frame selector' = None)
        /\ (forall i' frame' selector',
              (i' < i)%nat -> nth_error frames i' = Some frame' ->
              In selector' selectors -> first_match frame' selector' = None)
  | None =>
      forall frame selector,
        In frame frames -> In selector selectors -> first_match frame selector = None
  end.
Proof.
  rewrite find_email_input_scan.
  match goal with |- context [first_some ?f frames] =>
    pose proof (first_some_spec f frames) as H;
    destruct (first_some f frames) as [[email_input found_frame]|]
  end.
  - destruct H as (i & frame & Hi & Hfound & Hbefore).
    rewrite first_input_in_scan in Hfound.
    pose proof (first_some_spec (first_match frame) selectors) as Hsel.
    destruct (first_some (first_match frame) selectors) as [e|]; [|discriminate].
    cbn in Hfound. inversion Hfound; subst e found_frame.
    destruct Hsel as (j & selector & Hj & Hmatch & Hearlier).
    exists i, j, selector. repeat split; auto.
    intros i' frame' selector' Hlt Hnth Hin.
    specialize (Hbefore i' frame' Hlt Hnth).
    rewrite first_input_in_scan in Hbefore.
    pose proof (first_some_spec (first_match frame') selectors) as Hno.
    destruct (first_some (first_match frame') selectors); [discriminate|].
    now apply Hno.
  - intros frame selector Hframe Hin.
    specialize (H frame Hframe).
    rewrite first_input_in_scan in H.
    pose proof (first_some_spec (first_match frame) selectors) as Hno.
    destruct (first_some (first_match frame) selectors); [discriminate|].
    now apply Hno.
Qed.

Lemma find_spin_button_first (target_frame : Frame) (button_selectors : list string) :
  match find_spin_button target_frame button_selectors with
  | Some spin_button =>
      exists j selector,
        nth_error button_selectors j = Some selector
        /\ first_match target_frame selector = Some spin_button
        /\ el_is_visible spin_button = Ok true
        /\ (forall j' selector',
              (j' < j)%nat -> nth_error button_selectors j' = Some selector' ->
              visible_first_match target_frame selector' = None)
  | None =>
      forall selector,
        In selector button_selectors ->
        visible_first_match target_frame selector = None
  end.
Proof.
  rewrite find_spin_button_scan.
  pose proof (first_some_spec (visible_first_match target_frame) button_selectors) as H.
  destruct (first_some (visible_first_match target_frame) button_selectors) as [btn|];
    [|exact H].
  destruct H as (j & selector & Hj & Hvis & Hearlier).
  exists j, selector. unfold visible_first_match in Hvis.
  destruct (first_match target_frame selector) as [b|]; [|discriminate].
  destruct (el_is_visible b) as [[|]|] eqn:Hb; try discriminate.
  inversion Hvis; subst b. repeat split; auto.
Qed.

(** [perform_spin] looks at the frames of the page through the email search
    alone. *)
Lemma perform_spin_frames
    (ses : Session) (frames' : list Frame) (email : string) (headless debug : bool)
    (pause : Z) :
  find_email_input frames' EMAIL_INPUT_SELECTORS
    = find_email_input (ses_frames ses) EMAIL_INPUT_SELECTORS ->
  perform_spin (with_frames ses frames') email headless debug pause
  = perform_spin ses email headless debug pause.
Proof.
  intros Hsame.
  assert (Hsteps : spin_steps (with_frames ses frames') email debug
                   = spin_steps ses email debug).
  { unfold spin_steps. cbn [with_frames ses_frames ses_goto]. now rewrite Hsame. }
  unfold perform_spin. now rewrite Hsteps.
Qed.

(** C3, as the code has it.  The search for the email input returns the
    first element that is present, visible or not: frames are scanned in the
    order of [page.frames], candidates in their declared order within each
    frame, and the first frame and candidate whose locator counts an element
    win, so the match of an earlier (outer) frame is preferred to one of a
    later frame; at most one element is returned.  The search for the spin
    button scans the frame that held the email input, candidates in declared
    order, and returns the first candidate whose first element answers that
    it is visible.  In [perform_spin] the visibility of the email input is
    awaited after the search, on the chosen element: a run that returns has
    seen it visible, and an element that does not become visible fails the
    run without another candidate being tried; the button is looked for in
    the frame of the chosen element and nowhere else, other frames of the
    page making no difference. *)
Theorem searches_return_first_match
    (frames : list Frame) (selectors button_selectors : list string) :
  match find_email_input frames selectors with
  | Some (email_input, target_frame) =>
      (exists i j selector,
          nth_error frames i = Some target_frame
          /\ nth_error selectors j = Some selector
          /\ first_match target_frame selector = Some email_input
          /\ (forall j' selector',
                (j' < j)%nat -> nth_error selectors j' = Some selector' ->
                first_match target_frame selector' = None)
          /\ (forall i' frame' selector',
                (i' < i)%nat -> nth_error frames i' = Some frame' ->
                In selector' selectors -> first_match frame' selector' = None))
      /\ match find_spin_button target_frame button_selectors with
         | Some spin_button =>
             exists j selector,
               nth_error button_selectors j = Some selector
               /\ first_match target_frame selector = Some spin_button
               /\ el_is_visible spin_button = Ok true
               /\ (forall j' selector',
                     (j' < j)%nat -> nth_error button_selectors j' = Some selector' ->
                     visible_first_match target_frame selector' = None)
         | None =>
             forall selector,
               In selector button_selectors ->
               visible_first_match target_frame selector = None
         end
  | None =>
      forall frame selector,
        In frame frames -> In selector selectors -> first_match frame selector = None
  end
  /\ (forall (ses : Session) (email : string) (headless debug : bool) (pause : Z)
             (email_input : Element) (target_frame : Frame),
        find_email_input (ses_frames ses) EMAIL_INPUT_SELECTORS
          = Some (email_input, target_frame) ->
        (forall spin_result,
            perform_spin ses email headless debug pause = Ok spin_result ->
            el_wait_for_visible email_input = Ok tt
            /\ exists spin_button,
                 find_spin_button target_frame SPIN_BUTTON_SELECTORS = Some spin_button
                 /\ el_click spin_button = Ok tt)
        /\ (forall e,
              ses_mkdir ses = Ok tt -> ses_launch ses headless = Ok tt ->
              ses_goto ses = Ok tt -> (forall name, ses_screenshot ses name = Ok tt) ->
              ses_close ses = Ok tt ->
              el_wait_for_visible email_input = Raise e ->
              perform_spin ses email headless debug pause = Raise e)
        /\ (forall frames',
              find_email_input frames' EMAIL_INPUT_SELECTORS
                = Some (email_input, target_frame) ->
              perform_spin (with_frames ses frames') email headless debug pause
              = perform_spin ses email headless debug pause)).
Proof.
  split.
  - pose proof (find_email_input_first frames selectors) as Hemail.
    destruct (find_email_input frames selectors) as [[email_input target_frame]|];
      [|exact Hemail].
    split; [exact Hemail|]. apply find_spin_button_first.
  - intros ses email headless debug pause email_input target_frame Hfound.
    split; [|split].
    + intros spin_result Hr.
      destruct (perform_spin_returns_steps _ _ _ _ _ _ Hr)
        as (_ & _ & _ & _ & (input & frame & button & Hin & Hwait & _ & Hbtn & Hclick) & _).
      rewrite Hfound in Hin. inversion Hin; subst input frame.
      split; [exact Hwait|]. now exists button.
    + intros e Hmkdir Hlaunch Hgoto Hshot Hclose Hwait.
      assert (Hsteps : spin_steps ses email debug = Raise e).
      { unfold spin_steps, debug_screenshot. rewrite Hgoto, Hfound, Hwait.
        destruct debug; rewrite ?Hshot; reflexivity. }
      unfold perform_spin, try_finally, snapshot_and_reraise.
      rewrite Hmkdir, Hlaunch, Hclose, Hsteps; cbn. now rewrite Hshot.
    + intros frames' Hfound'. apply perform_spin_frames. now rewrite Hfound, Hfound'.
Qed.

(** The claim C3 as the specification words it fails: with a hidden email
    input in the outer document and a visible one in the widget's frame the
    search settles on the hidden element of the outer document, where the
    specified locator returns the visible element of the widget. *)
Lemma email_search_returns_hidden_element :
  option_map (fun found => (el_id (fst found), el_is_visible (fst found), frame_url (snd found)))
             (find_email_input hidden_outer_frames EMAIL_INPUT_SELECTORS)
    = Some (7%nat, Ok false, "https://ferriswheelpress.com/pages/loyalty-lounge")
  /\ option_map (fun found => (el_id (fst found), el_is_visible (fst found), frame_url (snd found)))
                (spec_locate hidden_outer_frames EMAIL_INPUT_SELECTORS)
    = Some (1%nat, Ok true, "https://widget.example/wheel")
  /\ find_email_input hidden_outer_frames EMAIL_INPUT_SELECTORS
     <> spec_locate hidden_outer_frames EMAIL_INPUT_SELECTORS.
Proof.
  repeat split; try reflexivity.
  intros Heq.
  apply (f_equal (option_map (fun found : Element * Frame => el_id (fst found)))) in Heq.
  vm_compute in Heq. discriminate.
Qed.

Lemma searches_return_first_match_witness :
  (exists i j selector,
      nth_error [main_frame; widget_frame] i = Some widget_frame
      /\ nth_error EMAIL_INPUT_SELECTORS j = Some selector
      /\ first_match widget_frame selector = Some (element 1 true)
      /\ (forall j' selector',
            (j' < j)%nat -> nth_error EMAIL_INPUT_SELECTORS j' = Some selector' ->
            first_match widget_frame selector' = None)
      /\ (forall i' frame' selector',
            (i' < i)%nat -> nth_error [main_frame; widget_frame] i' = Some frame' ->
            In selector' EMAIL_INPUT_SELECTORS -> first_match frame' selector' = None))
  /\ (exists j selector,
        nth_error SPIN_BUTTON_SELECTORS j = Some selector
        /\ first_match widget_frame selector = Some (element 2 true)
        /\ el_is_visible (element 2 true) = Ok true
        /\ (forall j' selector',
              (j' < j)%nat -> nth_error SPIN_BUTTON_SELECTORS j' = Some selector' ->
              visible_first_match widget_frame selector' = None))
  /\ find_email_input hidden_outer_frames EMAIL_INPUT_SELECTORS
     = Some (element 7 false, outer_hidden_frame)
  /\ el_wait_for_visible (element 7 false) = Raise wait_timeout
  /\ perform_spin (session_on hidden_outer_frames) "me@example.com" true false 0
     = Raise wait_timeout
  /\ perform_spin (with_frames (session_on hidden_outer_frames) [outer_hidden_frame])
                  "me@example.com" true false 0
     = perform_spin (session_on hidden_outer_frames) "me@example.com" true false 0.
Proof.
  destruct (searches_return_first_match [main_frame; widget_frame]
              EMAIL_INPUT_SELECTORS SPIN_BUTTON_SELECTORS) as [Hsearch Hspin].
  destruct (Hspin (session_on hidden_outer_frames) "me@example.com" true false 0
                  (element 7 false) outer_hidden_frame eq_refl)
    as (_ & Hwait & Hframes).
  split; [exact (proj1 Hsearch)|]. split; [exact (proj2 Hsearch)|].
  split; [reflexivity|]. split; [reflexivity|]. split.
  - apply (Hwait wait_timeout); reflexivity.
  - apply (Hframes [outer_hidden_frame]). reflexivity.
Defined.

(** ** The absent wheel *)

Lemma classify_recognises (e : exn) :
  classify e = WheelNotReady e
  <-> contains "not available" (lower (str_of_exn e)) = true.
Proof.
  unfold classify.
  destruct (contains "not available" (lower (str_of_exn e))); split;
    intros H; try reflexivity; discriminate.
Qed.

Lemma classify_not_completed (e : exn) : classify e <> Completed.
Proof.
  unfold classify.
  destruct (contains "not available" (lower (str_of_exn e))); discriminate.
Qed.

(** C4, as the code has it.  When no frame and candidate match, the search
    itself ends without an element and without raising, whatever the
    locators of the page do; [perform_spin] then raises a plain [Exception]
    with a fixed message (the browser calls around the search succeeding).
    The outcome is no typed result: the handler of [main] tells it from any
    other failure by the text "not available" in the message and by nothing
    else. *)
Theorem absent_wheel_is_raised
    (ses : Session) (email : string) (headless debug : bool) (pause : Z) :
  (forall frame selector,
      In frame (ses_frames ses) -> In selector EMAIL_INPUT_SELECTORS ->
      first_match frame selector = None) ->
  find_email_input (ses_frames ses) EMAIL_INPUT_SELECTORS = None
  /\ (ses_mkdir ses = Ok tt -> ses_launch ses headless = Ok tt ->
      ses_goto ses = Ok tt -> (forall name, ses_screenshot ses name = Ok tt) ->
      ses_close ses = Ok tt ->
      perform_spin ses email headless debug pause = Raise wheel_not_available)
  /\ exn_cls wheel_not_available = Exception
  /\ (forall e, classify e = WheelNotReady e
                <-> contains "not available" (lower (str_of_exn e)) = true).
Proof.
  intros Hnone.
  pose proof (find_email_input_none _ _ Hnone) as Hsearch.
  split; [exact Hsearch|]. split; [|split; [reflexivity | exact classify_recognises]].
  intros Hmkdir Hlaunch Hgoto Hshot Hclose.
  unfold perform_spin, spin_steps, debug_screenshot.
  rewrite Hmkdir, Hlaunch, Hgoto, Hclose, Hsearch; cbn.
  destruct debug; rewrite ?Hshot; cbn; rewrite ?Hshot; reflexivity.
Qed.

(** The claim C4 as the specification words it fails: on a page without the
    wheel [perform_spin] does raise, an exception of the generic class, and
    the handler of [main] files a timed-out click whose call log quotes the
    words "Not available" under the same ending. *)
Lemma absent_wheel_raises_generic_exception :
  perform_spin no_wheel_session "me@example.com" true false 0
    = Raise wheel_not_available
  /\ exn_cls wheel_not_available = Exception
  /\ (forall found : option string,
        perform_spin no_wheel_session "me@example.com" true false 0 <> Ok found)
  /\ classify wheel_not_available = WheelNotReady wheel_not_available
  /\ perform_spin stuck_button_session "me@example.com" true false 0
       = Raise click_timeout
  /\ classify click_timeout = WheelNotReady click_timeout.
Proof.
  repeat split; try reflexivity. intros found H. vm_compute in H. discriminate.
Qed.

Section Properties.

Variable fromisoformat : string -> result datetime.
Variable isoformat : datetime -> string.

(** Once an email is chosen and the gate is out of the way, [main] is its
    [try] statement. *)
Lemma main_reaches_attempt (args : Args) (env : Env) (email : string) :
  choose_email args env = Some email ->
  args_force args = true \/ args_test args = true \/
    should_spin fromisoformat SPIN_INTERVAL_HOURS (env_state_file env) (env_now_gate env) = Ok true ->
  main fromisoformat isoformat args env = attempt_spin isoformat args env email.
Proof.
  intros Hemail Hgate. unfold main. rewrite Hemail.
  destruct Hgate as [Hf | [Ht | Hs]].
  - rewrite Hf. reflexivity.
  - rewrite Ht. now rewrite andb_false_r.
  - rewrite Hs. now destruct (negb (args_force args) && negb (args_test args)).
Qed.

Lemma attempt_spin_attempts (args : Args) (env : Env) (email : string) :
  run_attempt (attempt_spin isoformat args env email) = Some email.
Proof.
  unfold attempt_spin.
  destruct (perform_spin _ _ _ _ _); [|reflexivity].
  destruct (negb (args_test args)); [|reflexivity].
  now destruct (save_last_spin _ _ _ _ _) as [file' [u|e]].
Qed.

(** The [try] statement of [main] ends the same way whatever the state file
    and the gate's clock. *)
Lemma attempt_spin_ignores_stored_state
    (args : Args) (env : Env) (email : string) (file : option file_content) (now : Z) :
  run_ending (attempt_spin isoformat args (with_stored_state env file now) email)
  = run_ending (attempt_spin isoformat args env email)
  /\ run_attempt (attempt_spin isoformat args (with_stored_state env file now) email)
     = run_attempt (attempt_spin isoformat args env email).
Proof.
  unfold attempt_spin, with_stored_state, save_last_spin; cbn.
  destruct (perform_spin _ _ _ _ _); [|split; reflexivity].
  destruct (negb (args_test args)); [|split; reflexivity].
  destruct (env_write env); split; reflexivity.
Qed.

(** ** The eligibility gate *)

(** C1.  Without a stored timestamp (no state file, or a record whose
    [last_spin] is missing or null) the gate answers eligible; with a stored
    timestamp that reads as the aware instant [t - off], it answers
    eligible exactly when [now - (t - off) >= timedelta(hours)]. *)
Theorem should_spin_gate (hours : Q) (now : Z) :
  should_spin fromisoformat hours None now = Ok true
  /\ (forall members,
        lookup "last_spin" members = None \/ lookup "last_spin" members = Some JNull ->
        should_spin fromisoformat hours (Some (Document (JObj members))) now = Ok true)
  /\ (forall members text t off,
        lookup "last_spin" members = Some (JStr text) ->
        fromisoformat text = Ok (mkDatetime t (Some off)) ->
        exists eligible : bool,
          should_spin fromisoformat hours (Some (Document (JObj members))) now = Ok eligible
          /\ (eligible = true <-> now - utc_instant t off >= timedelta_hours hours)).
Proof.
  split; [reflexivity|]. split.
  - intros members [H | H]; unfold should_spin; cbn; now rewrite H.
  - intros members text t off Hlook Hparse.
    exists (timedelta_hours hours <=? now - utc_instant t off).
    split.
    + unfold should_spin; cbn. rewrite Hlook; cbn. rewrite Hparse; cbn.
      unfold utc_instant. replace (now - 0 - (t - off)) with (now - (t - off)) by lia.
      now destruct (timedelta_hours hours <=? now - (t - off)).
    + rewrite Z.leb_le. lia.
Qed.

(** A stored timestamp without UTC offset cannot be subtracted from the
    aware [now]: the gate raises [TypeError]. *)
Lemma naive_timestamp_raises
    (hours : Q) (now : Z) (members : list (string * json)) (text : string) (t : Z) :
  lookup "last_spin" members = Some (JStr text) ->
  fromisoformat text = Ok (mkDatetime t None) ->
  should_spin fromisoformat hours (Some (Document (JObj members))) now
  = Raise (mkExn TypeError "can't subtract offset-naive and offset-aware datetimes").
Proof.
  intros Hlook Hparse. unfold should_spin; cbn.
  rewrite Hlook; cbn. now rewrite Hparse.
Qed.

(** C2, as the code has it.  A stored timestamp text that
    [datetime.fromisoformat] rejects is not read as a missing record: the
    gate raises the parser's exception, and a run that consults the gate
    ends with that exception uncaught, status 1, without a spin attempt and
    with the state file as it was. *)
Theorem malformed_timestamp_raises
    (hours : Q) (now : Z) (members : list (string * json)) (text : string) (e : exn) :
  lookup "last_spin" members = Some (JStr text) ->
  fromisoformat text = Raise e ->
  should_spin fromisoformat hours (Some (Document (JObj members))) now = Raise e
  /\ (forall args env email,
        env_state_file env = Some (Document (JObj members)) ->
        args_force args = false -> args_test args = false ->
        choose_email args env = Some email ->
        main fromisoformat isoformat args env = mkRun (Uncaught e) (env_state_file env) None
        /\ exit_code (run_ending (main fromisoformat isoformat args env)) = 1).
Proof.
  intros Hlook Hparse.
  assert (Hgate : forall now', should_spin fromisoformat hours (Some (Document (JObj members))) now' = Raise e).
  { intros now'. unfold should_spin; cbn. rewrite Hlook; cbn. now rewrite Hparse. }
  split; [apply Hgate|].
  intros args env email Hfile Hf Ht Hemail.
  assert (Hmain : main fromisoformat isoformat args env = mkRun (Uncaught e) (env_state_file env) None).
  { unfold main. rewrite Hemail, Hf, Ht; cbn.
    rewrite Hfile.
    assert (Hg : should_spin fromisoformat SPIN_INTERVAL_HOURS (Some (Document (JObj members)))
                   (env_now_gate env) = Raise e).
    { unfold should_spin; cbn. rewrite Hlook; cbn. now rewrite Hparse. }
    now rewrite Hg. }
  split; [exact Hmain | now rewrite Hmain].
Qed.

(** ** Status codes *)

(** C5, as the code has it.  For a run that reaches the spin attempt: it
    leaves with status 0 when [perform_spin] returns and the record is
    saved (or need not be); when [perform_spin] or the saving raises, the
    status is 0 if the message holds "not available" in any letter case and
    1 otherwise.  So the absent wheel gives 0 and the spin button never
    located gives 1, and any other failure gives 1 unless its message
    carries those words. *)
Theorem exit_code_of_attempt (args : Args) (env : Env) (email : string) :
  choose_email args env = Some email ->
  args_force args = true \/ args_test args = true \/
    should_spin fromisoformat SPIN_INTERVAL_HOURS (env_state_file env) (env_now_gate env)
      = Ok true ->
  let outcome :=
    perform_spin (env_session env) email (negb (args_no_headless args))
                 (args_debug args) (args_pause args) in
  let code := exit_code (run_ending (main fromisoformat isoformat args env)) in
  (forall spin_result,
      outcome = Ok spin_result ->
      args_test args = true \/ env_open_write env = Ok tt ->
      code = 0)
  /\ (forall e,
        outcome = Raise e ->
        code = if contains "not available" (lower (str_of_exn e)) then 0 else 1)
  /\ (forall spin_result e,
        outcome = Ok spin_result ->
        args_test args = false -> env_open_write env = Raise e ->
        code = if contains "not available" (lower (str_of_exn e)) then 0 else 1)
  /\ (outcome = Raise wheel_not_available -> code = 0)
  /\ (outcome = Raise no_spin_button -> code = 1).
Proof.
  intros Hemail Hgate outcome code.
  assert (Hcode : code = exit_code (run_ending (attempt_spin isoformat args env email))).
  { unfold code. now rewrite (main_reaches_attempt args env email Hemail Hgate). }
  assert (Hclass : forall e, exit_code (classify e)
                     = if contains "not available" (lower (str_of_exn e)) then 0 else 1).
  { intros e. unfold classify.
    now destruct (contains "not available" (lower (str_of_exn e))). }
  assert (Hraise : forall e, outcome = Raise e -> code = exit_code (classify e)).
  { intros e He. rewrite Hcode. unfold attempt_spin. fold outcome. now rewrite He. }
  repeat split.
  - intros spin_result Hok Hsave. rewrite Hcode. unfold attempt_spin.
    fold outcome. rewrite Hok.
    destruct (args_test args); cbn; [reflexivity|].
    destruct Hsave as [Habs | Hwrite]; [discriminate|].
    unfold save_last_spin. unfold env_open_write in Hwrite.
    destruct (env_write env); try discriminate. reflexivity.
  - intros e He. now rewrite (Hraise e He).
  - intros spin_result e Hok Htest Hwrite. rewrite Hcode. unfold attempt_spin.
    fold outcome. rewrite Hok, Htest; cbn.
    unfold save_last_spin. unfold env_open_write in Hwrite.
    destruct (env_write env); inversion Hwrite; subst; cbn; apply Hclass.
  - intros He. now rewrite (Hraise _ He).
  - intros He. now rewrite (Hraise _ He).
Qed.

(** ** The state file *)

(** C6, as the code has it.  Every successful run without the test flag,
    forced or not, replaces the whole record by the timestamp of the saving
    and the captured text, null when no text was captured. *)
Theorem successful_run_overwrites_record (args : Args) (env : Env) :
  args_test args = false ->
  run_ending (main fromisoformat isoformat args env) = Completed ->
  exists email spin_result,
    perform_spin (env_session env) email (negb (args_no_headless args))
                 (args_debug args) (args_pause args) = Ok spin_result
    /\ run_state_file (main fromisoformat isoformat args env)
       = Some (Document (JObj
           [ ("last_spin", JStr (isoformat (now_utc (env_now_save env))));
             ("result", json_of_result spin_result) ])).
Proof.
  intros Htest.
  assert (Hattempt : forall email,
    run_ending (attempt_spin isoformat args env email) = Completed ->
    exists spin_result,
      perform_spin (env_session env) email (negb (args_no_headless args))
                   (args_debug args) (args_pause args) = Ok spin_result
      /\ run_state_file (attempt_spin isoformat args env email)
         = Some (Document (JObj
             [ ("last_spin", JStr (isoformat (now_utc (env_now_save env))));
               ("result", json_of_result spin_result) ]))).
  { intros email. unfold attempt_spin. rewrite Htest; cbn.
    destruct (perform_spin _ _ _ _ _) as [spin_result|e]; cbn.
    - unfold save_last_spin.
      destruct (env_write env) as [|e|e remains]; cbn.
      + intros _. now exists spin_result.
      + intros H. now apply classify_not_completed in H.
      + intros H. now apply classify_not_completed in H.
    - intros H. now apply classify_not_completed in H. }
  unfold main.
  destruct (choose_email args env) as [email|]; [|discriminate].
  destruct (negb (args_force args) && negb (args_test args)).
  - destruct (should_spin _ _ _ _) as [[|]|e]; try discriminate.
    intros H. exists email. now apply Hattempt.
  - intros H. exists email. now apply Hattempt.
Qed.

(** C7.  A run with the test flag leaves the state file as it found it. *)
Theorem test_run_keeps_state_file (args : Args) (env : Env) :
  args_test args = true ->
  run_state_file (main fromisoformat isoformat args env) = env_state_file env.
Proof.
  intros Htest. unfold main, choose_email. rewrite Htest.
  rewrite andb_false_r. unfold attempt_spin. rewrite Htest; cbn.
  now destruct (perform_spin _ _ _ _ _).
Qed.

(** ** The flags and the gate *)

(** C8.  With the force flag the gate plays no part: whatever the state
    file and the clock, [main] goes from the choice of the email straight
    to the spin attempt, [perform_spin] is called with that email, and
    another state file or another clock would change neither the ending of
    the run nor the attempt. *)
Theorem force_bypasses_gate (args : Args) (env : Env) :
  args_force args = true ->
  main fromisoformat isoformat args env
  = match choose_email args env with
    | Some email => attempt_spin isoformat args env email
    | None => mkRun MissingEmail (env_state_file env) None
    end
  /\ (forall email,
        choose_email args env = Some email ->
        run_attempt (main fromisoformat isoformat args env) = Some email)
  /\ (forall file now,
        run_ending (main fromisoformat isoformat args (with_stored_state env file now))
        = run_ending (main fromisoformat isoformat args env)
        /\ run_attempt (main fromisoformat isoformat args (with_stored_state env file now))
           = run_attempt (main fromisoformat isoformat args env)).
Proof.
  intros Hforce.
  assert (Hmain : forall env',
             main fromisoformat isoformat args env'
             = match choose_email args env' with
               | Some email => attempt_spin isoformat args env' email
               | None => mkRun MissingEmail (env_state_file env') None
               end).
  { intros env'. unfold main. now rewrite Hforce. }
  split; [apply Hmain|]. split.
  - intros email Hemail. rewrite Hmain, Hemail. apply attempt_spin_attempts.
  - intros file now. rewrite !Hmain.
    change (choose_email args (with_stored_state env file now))
      with (choose_email args env).
    destruct (choose_email args env) as [email|]; [|split; reflexivity].
    apply attempt_spin_ignores_stored_state.
Qed.

(** C9.  The test flag alone keeps the gate out as well: the run goes to
    the spin attempt with the test address whatever the state file holds
    and however recent its timestamp, the force flag set or not; another
    state file or another clock would change neither the ending of the run
    nor the attempt. *)
Theorem test_flag_bypasses_gate (args : Args) (env : Env) :
  args_test args = true ->
  main fromisoformat isoformat args env
  = attempt_spin isoformat args env "ginaf97689@noihse.com"
  /\ run_attempt (main fromisoformat isoformat args env) = Some "ginaf97689@noihse.com"
  /\ (forall file now,
        run_ending (main fromisoformat isoformat args (with_stored_state env file now))
        = run_ending (main fromisoformat isoformat args env)
        /\ run_attempt (main fromisoformat isoformat args (with_stored_state env file now))
           = run_attempt (main fromisoformat isoformat args env)).
Proof.
  intros Htest.
  assert (Hmain : forall env',
             main fromisoformat isoformat args env'
             = attempt_spin isoformat args env' "ginaf97689@noihse.com").
  { intros env'. unfold main, choose_email. rewrite Htest. now rewrite andb_false_r. }
  split; [apply Hmain|]. split.
  - rewrite Hmain. apply attempt_spin_attempts.
  - intros file now. rewrite !Hmain. apply attempt_spin_ignores_stored_state.
Qed.

(** With neither flag the gate decides: a record too recent ends the run
    before any spin attempt. *)
Lemma gate_consulted_without_flags (args : Args) (env : Env) (email : string) :
  args_force args = false -> args_test args = false ->
  choose_email args env = Some email ->
  should_spin fromisoformat SPIN_INTERVAL_HOURS (env_state_file env) (env_now_gate env)
    = Ok false ->
  main fromisoformat isoformat args env = mkRun Skipped (env_state_file env) None.
Proof.
  intros Hforce Htest Hemail Hgate. unfold main.
  now rewrite Hemail, Hforce, Htest, Hgate.
Qed.

End Properties.

(** ** The test address *)

(** C10.  [generate_random_email] returns the same fixed address whatever
    the random generator draws; the ten draws only advance the generator. *)
Theorem generate_random_email_is_fixed (g g' : rng) :
  fst (generate_random_email g) = "ginaf97689@noihse.com"
  /\ fst (generate_random_email g) = fst (generate_random_email g')
  /\ snd (generate_random_email g) = skipn 10 g.
Proof. repeat split. Qed.

(** ** The properties at work on the sample inputs *)

Lemma should_spin_gate_witness :
  lookup "last_spin" [("last_spin", JStr "2024-11-04T14:00:00+00:00"); ("result", JNull)]
    = Some (JStr "2024-11-04T14:00:00+00:00")
  /\ py_fromisoformat "2024-11-04T14:00:00+00:00" = Ok (mkDatetime t_first (Some 0))
  /\ exists eligible : bool,
       should_spin py_fromisoformat SPIN_INTERVAL_HOURS old_record t_next_day = Ok eligible
       /\ (eligible = true
           <-> t_next_day - utc_instant t_first 0 >= timedelta_hours SPIN_INTERVAL_HOURS).
Proof.
  split; [reflexivity|]. split; [reflexivity|].
  destruct (should_spin_gate py_fromisoformat SPIN_INTERVAL_HOURS t_next_day)
    as (_ & _ & Hstored).
  exact (Hstored [("last_spin", JStr "2024-11-04T14:00:00+00:00"); ("result", JNull)]
                 "2024-11-04T14:00:00+00:00" t_first 0 eq_refl eq_refl).
Defined.

(** The scenarios of the specification: an hour after the last spin the
    gate says no, twenty-five hours after it says yes, and without a record
    it says yes. *)
Example gate_after_one_hour :
  should_spin py_fromisoformat SPIN_INTERVAL_HOURS recent_record t_next_day = Ok false.
Proof. reflexivity. Qed.

Example gate_after_twenty_five_hours :
  should_spin py_fromisoformat SPIN_INTERVAL_HOURS old_record t_next_day = Ok true.
Proof. reflexivity. Qed.

Example gate_at_the_interval :
  should_spin py_fromisoformat SPIN_INTERVAL_HOURS old_record
              (t_first + 24 * us_per_hour + 15 * us_per_minute) = Ok true
  /\ should_spin py_fromisoformat SPIN_INTERVAL_HOURS old_record
                 (t_first + 24 * us_per_hour + 15 * us_per_minute - 1) = Ok false.
Proof. split; reflexivity. Qed.

Example saved_timestamp_reads_back :
  py_fromisoformat (py_isoformat (now_utc (t_next_day + 123456)))
    = Ok (now_utc (t_next_day + 123456)).
Proof. reflexivity. Qed.

(** The claim C2 as the specification words it fails: a record whose
    timestamp does not parse makes the gate raise [ValueError], where a
    missing record makes it answer eligible, and the run ends on the
    uncaught exception. *)
Lemma malformed_timestamp_is_not_read_as_missing :
  py_fromisoformat "yesterday afternoon" = Raise invalid_text
  /\ should_spin py_fromisoformat SPIN_INTERVAL_HOURS garbled_record t_next_day
     = Raise invalid_text
  /\ should_spin py_fromisoformat SPIN_INTERVAL_HOURS None t_next_day = Ok true
  /\ should_spin py_fromisoformat SPIN_INTERVAL_HOURS garbled_record t_next_day
     <> Ok true
  /\ main py_fromisoformat py_isoformat plain_args (env_with garbled_record wheel_session)
     = mkRun (Uncaught invalid_text) garbled_record None.
Proof.
  repeat split; try reflexivity. intros H. vm_compute in H. discriminate.
Qed.

Lemma malformed_timestamp_raises_witness :
  lookup "last_spin" [("last_spin", JStr "yesterday afternoon"); ("result", JNull)]
    = Some (JStr "yesterday afternoon")
  /\ py_fromisoformat "yesterday afternoon" = Raise invalid_text
  /\ should_spin py_fromisoformat SPIN_INTERVAL_HOURS garbled_record t_next_day
     = Raise invalid_text
  /\ exit_code (run_ending (main py_fromisoformat py_isoformat plain_args
                                 (env_with garbled_record wheel_session))) = 1.
Proof.
  split; [reflexivity|]. split; [reflexivity|].
  destruct (malformed_timestamp_raises py_fromisoformat py_isoformat
              SPIN_INTERVAL_HOURS t_next_day
              [("last_spin", JStr "yesterday afternoon"); ("result", JNull)]
              "yesterday afternoon" invalid_text eq_refl eq_refl) as [Hgate Hrun].
  split; [exact Hgate|].
  apply (Hrun plain_args (env_with garbled_record wheel_session) "me@example.com");
    reflexivity.
Defined.

Lemma absent_wheel_is_raised_witness :
  (forall frame selector,
      In frame (ses_frames no_wheel_session) -> In selector EMAIL_INPUT_SELECTORS ->
      first_match frame selector = None)
  /\ find_email_input (ses_frames no_wheel_session) EMAIL_INPUT_SELECTORS = None
  /\ perform_spin no_wheel_session "me@example.com" true true 0
     = Raise wheel_not_available.
Proof.
  assert (Hnone : forall frame selector,
             In frame (ses_frames no_wheel_session) -> In selector EMAIL_INPUT_SELECTORS ->
             first_match frame selector = None).
  { intros frame selector [<- | []] [<- | []]. reflexivity. }
  split; [exact Hnone|].
  destruct (absent_wheel_is_raised no_wheel_session "me@example.com" true true 0 Hnone)
    as (Hsearch & Hraise & _).
  split; [exact Hsearch|].
  apply Hraise; reflexivity.
Defined.

(** The claim C5 as the specification words it fails: the wheel is on the
    page and the click on its button times out, a failure other than the
    absent wheel, yet the run leaves with status 0 because the library's
    message quotes the button's label "Not available". *)
Lemma other_failure_exits_zero :
  (exists email_input target_frame,
      find_email_input (ses_frames stuck_button_session) EMAIL_INPUT_SELECTORS
      = Some (email_input, target_frame))
  /\ perform_spin stuck_button_session "me@example.com" true false 0
     = Raise click_timeout
  /\ exn_cls click_timeout = PlaywrightTimeout
  /\ run_ending (main py_fromisoformat py_isoformat plain_args
                      (env_with None stuck_button_session))
     = WheelNotReady click_timeout
  /\ exit_code (run_ending (main py_fromisoformat py_isoformat plain_args
                                 (env_with None stuck_button_session))) = 0.
Proof.
  split; [eexists; eexists; reflexivity|]. repeat split; reflexivity.
Qed.

Lemma exit_code_of_attempt_witness :
  choose_email plain_args (env_with None no_button_session) = Some "me@example.com"
  /\ should_spin py_fromisoformat SPIN_INTERVAL_HOURS None t_next_day = Ok true
  /\ perform_spin no_button_session "me@example.com" true false 0 = Raise no_spin_button
  /\ exit_code (run_ending (main py_fromisoformat py_isoformat plain_args
                                 (env_with None no_button_session))) = 1.
Proof.
  split; [reflexivity|]. split; [reflexivity|]. split; [reflexivity|].
  apply (exit_code_of_attempt py_fromisoformat py_isoformat plain_args
           (env_with None no_button_session) "me@example.com" eq_refl
           (or_intror (or_intror eq_refl))).
  reflexivity.
Defined.

Example exit_codes_of_sample_runs :
  exit_code (run_ending (main py_fromisoformat py_isoformat plain_args
                              (env_with None wheel_session))) = 0
  /\ exit_code (run_ending (main py_fromisoformat py_isoformat plain_args
                                 (env_with None no_wheel_session))) = 0
  /\ exit_code (run_ending (main py_fromisoformat py_isoformat plain_args
                                 (env_with None offline_session))) = 1
  /\ exit_code (run_ending (main py_fromisoformat py_isoformat plain_args
                                 (env_with recent_record wheel_session))) = 0.
Proof. repeat split; reflexivity. Qed.

(** The claim C6 as the specification words it fails: a successful run
    with the test flag, not forced, leaves the old record in place and
    writes no fresh timestamp. *)
Lemma successful_test_run_writes_nothing :
  run_ending (main py_fromisoformat py_isoformat test_args
                   (env_with old_record wheel_session)) = Completed
  /\ run_state_file (main py_fromisoformat py_isoformat test_args
                          (env_with old_record wheel_session)) = old_record
  /\ forall spin_result,
       run_state_file (main py_fromisoformat py_isoformat test_args
                            (env_with old_record wheel_session))
       <> Some (Document (JObj
            [ ("last_spin",
               JStr (py_isoformat (now_utc (t_next_day + 60 * us_per_second))));
              ("result", json_of_result spin_result) ])).
Proof.
  repeat split; try reflexivity. intros spin_result H. vm_compute in H. discriminate.
Qed.

Lemma successful_run_overwrites_record_witness :
  args_test force_args = false
  /\ run_ending (main py_fromisoformat py_isoformat force_args
                      (env_with recent_record silent_wheel_session)) = Completed
  /\ exists email spin_result,
       perform_spin silent_wheel_session email true false 0 = Ok spin_result
       /\ run_state_file (main py_fromisoformat py_isoformat force_args
                               (env_with recent_record silent_wheel_session))
          = Some (Document (JObj
              [ ("last_spin",
                 JStr (py_isoformat (now_utc (t_next_day + 60 * us_per_second))));
                ("result", json_of_result spin_result) ])).
Proof.
  split; [reflexivity|]. split; [reflexivity|].
  apply (successful_run_overwrites_record py_fromisoformat py_isoformat force_args
           (env_with recent_record silent_wheel_session)); reflexivity.
Defined.

Example run_without_result_text_saves_null :
  run_state_file (main py_fromisoformat py_isoformat plain_args
                       (env_with old_record silent_wheel_session))
  = Some (Document (JObj [ ("last_spin", JStr "2024-11-05T15:01:00+00:00");
                           ("result", JNull) ])).
Proof. reflexivity. Qed.

Lemma test_run_keeps_state_file_witness :
  args_test test_args = true
  /\ run_state_file (main py_fromisoformat py_isoformat test_args
                          (env_with recent_record wheel_session)) = recent_record.
Proof.
  split; [reflexivity|].
  apply (test_run_keeps_state_file py_fromisoformat py_isoformat test_args
           (env_with recent_record wheel_session)); reflexivity.
Defined.

Lemma force_bypasses_gate_witness :
  args_force force_args = true
  /\ choose_email force_args (env_with recent_record wheel_session) = Some "me@example.com"
  /\ run_attempt (main py_fromisoformat py_isoformat force_args
                       (env_with recent_record wheel_session)) = Some "me@example.com".
Proof.
  split; [reflexivity|]. split; [reflexivity|].
  apply (proj1 (proj2 (force_bypasses_gate py_fromisoformat py_isoformat force_args
                         (env_with recent_record wheel_session) eq_refl))).
  reflexivity.
Defined.

Lemma test_flag_bypasses_gate_witness :
  args_test test_args = true
  /\ run_attempt (main py_fromisoformat py_isoformat test_args
                       (env_with recent_record wheel_session))
     = Some "ginaf97689@noihse.com".
Proof.
  split; [reflexivity|].
  apply (proj1 (proj2 (test_flag_bypasses_gate py_fromisoformat py_isoformat test_args
                         (env_with recent_record wheel_session) eq_refl))).
Defined.

Example gate_stops_plain_run_on_recent_record :
  main py_fromisoformat py_isoformat plain_args (env_with recent_record wheel_session)
  = mkRun Skipped recent_record None.
Proof. reflexivity. Qed.

(** * Further properties of the script *)

(** ** The text test of the handler *)

Lemma prefix_split (a b : string) :
  String.prefix a b = true <-> exists post, b = (a ++ post)%string.
Proof.
  revert b. induction a as [|c a IH]; intros b.
  - destruct b; cbn; (split; [intros _; eexists; reflexivity | reflexivity]).
  - destruct b as [|d b]; cbn.
    + split; [discriminate | intros [post H]; discriminate].
    + destruct (ascii_dec c d) as [->|Hne].
      * rewrite IH. split; intros [post H]; exists post.
        -- now rewrite H.
        -- now inversion H.
      * split; [discriminate|]. intros [post H]. congruence.
Qed.

Lemma contains_unfold (needle hay : string) :
  contains needle hay
  = if String.prefix needle hay then true
    else match hay with
         | EmptyString => false
         | String _ t => contains needle t
         end.
Proof. destruct hay; reflexivity. Qed.

Lemma contains_split (needle hay : string) :
  contains needle hay = true
  <-> exists pre post, hay = (pre ++ needle ++ post)%string.
Proof.
  split.
  - induction hay as [|c hay IH]; rewrite contains_unfold.
    + destruct (String.prefix needle "") eqn:Hp; [|discriminate].
      intros _. apply prefix_split in Hp. destruct Hp as [post Hp].
      now exists EmptyString, post.
    + destruct (String.prefix needle (String c hay)) eqn:Hp.
      * intros _. apply prefix_split in Hp. destruct Hp as [post Hp].
        now exists EmptyString, post.
      * intros H. destruct (IH H) as (pre & post & Heq).
        exists (String c pre), post. cbn. now rewrite Heq.
  - intros (pre & post & ->). induction pre as [|c pre IH]; rewrite contains_unfold.
    + assert (Hp : String.prefix needle (needle ++ post) = true)
        by (apply prefix_split; now exists post).
      cbn. now rewrite Hp.
    + destruct (String.prefix needle (String c pre ++ needle ++ post)); auto.
Qed.

(** X1.  The handler of [main] ends the run with status 0 exactly when the
    lower-cased message of the exception reads [pre ++ "not available" ++
    post] for some texts [pre] and [post], and with status 1 otherwise. *)
Theorem handler_exits_zero_iff_message_holds_the_words (e : exn) :
  (exit_code (classify e) = 0
   <-> exists pre post,
         lower (str_of_exn e) = (pre ++ "not available" ++ post)%string)
  /\ (exit_code (classify e) = 1
      <-> ~ exists pre post,
            lower (str_of_exn e) = (pre ++ "not available" ++ post)%string).
Proof.
  pose proof (contains_split "not available" (lower (str_of_exn e))) as Hsplit.
  unfold classify.
  destruct (contains "not available" (lower (str_of_exn e))); cbn; split; split.
  - intros _. now apply Hsplit.
  - reflexivity.
  - discriminate.
  - intros Hno. exfalso. apply Hno. now apply Hsplit.
  - discriminate.
  - intros H. apply Hsplit in H. discriminate.
  - intros _ H. apply Hsplit in H. discriminate.
  - reflexivity.
Qed.

Lemma classify_cases (e : exn) :
  classify e = WheelNotReady e \/ classify e = SpinFailed e.
Proof.
  unfold classify.
  destruct (contains "not available" (lower (str_of_exn e))); auto.
Qed.

Section Coverage.

Variable fromisoformat : string -> result datetime.
Variable isoformat : datetime -> string.

(** The [try] statement of [main] ends in one of three ways. *)
Lemma attempt_spin_endings (args : Args) (env : Env) (email : string) :
  run_ending (attempt_spin isoformat args env email) = Completed
  \/ exists e, run_ending (attempt_spin isoformat args env email) = WheelNotReady e
               \/ run_ending (attempt_spin isoformat args env email) = SpinFailed e.
Proof.
  unfold attempt_spin.
  destruct (perform_spin _ _ _ _ _) as [r|e].
  - destruct (negb (args_test args)); [|now left].
    destruct (save_last_spin _ _ _ _ _) as [f [u|e]]; [now left|].
    right. exists e. apply classify_cases.
  - right. exists e. apply classify_cases.
Qed.

(** ** The gate in time *)

(** X2.  Once the gate answers eligible it keeps answering eligible at
    every later reading of the clock, the state file staying as it is. *)
Theorem gate_stays_open
    (hours : Q) (file : option file_content) (now later : Z) :
  should_spin fromisoformat hours file now = Ok true ->
  now <= later ->
  should_spin fromisoformat hours file later = Ok true.
Proof.
  unfold should_spin. intros Hopen Hlater.
  destruct (load_last_spin file) as [data|e]; cbn in *; [|discriminate].
  destruct (dict_get data "last_spin") as [last_spin|e]; cbn in *; [|discriminate].
  destruct last_spin; try discriminate; [reflexivity|].
  destruct (fromisoformat s) as [[t [off|]]|e]; cbn in *; try discriminate.
  destruct (timedelta_hours hours <=? utc_instant now 0 - utc_instant t off) eqn:Hle;
    [|discriminate].
  apply Z.leb_le in Hle.
  assert (Hle' : (timedelta_hours hours <=? utc_instant later 0 - utc_instant t off) = true).
  { apply Z.leb_le. unfold utc_instant in *. lia. }
  now rewrite Hle'.
Qed.

(** ** State files the gate cannot read *)

(** X3.  When the state file cannot be opened or read, holds bytes that do
    not decode, is no JSON, is no JSON object, or holds a [last_spin] that
    is neither null nor a string, the gate raises at every reading of the
    clock: the exception of the opening, [UnicodeDecodeError],
    [JSONDecodeError], [AttributeError] and [TypeError] in that order.  A run
    with neither flag ends on that exception uncaught: status 1, no browser
    started, the file left as it was. *)
Theorem unreadable_state_file_stops_plain_run (content : file_content) :
  state_file_unreadable content = true ->
  exists e,
    (forall e', content = Unreadable e' -> e = e')
    /\ (content = Undecodable -> exn_cls e = UnicodeDecodeError)
    /\ (forall raw, content = NotJson raw -> exn_cls e = JSONDecodeError)
    /\ (forall j, content = Document j ->
                  (forall members, j <> JObj members) -> exn_cls e = AttributeError)
    /\ (forall members, content = Document (JObj members) -> exn_cls e = TypeError)
    /\ (forall hours now, should_spin fromisoformat hours (Some content) now = Raise e)
    /\ (forall args env email,
          env_state_file env = Some content ->
          args_force args = false -> args_test args = false ->
          choose_email args env = Some email ->
          main fromisoformat isoformat args env = mkRun (Uncaught e) (Some content) None
          /\ exit_code (run_ending (main fromisoformat isoformat args env)) = 1).
Proof.
  intros Hbad.
  assert (Hmain : forall e,
    (forall hours now, should_spin fromisoformat hours (Some content) now = Raise e) ->
    forall args env email,
      env_state_file env = Some content ->
      args_force args = false -> args_test args = false ->
      choose_email args env = Some email ->
      main fromisoformat isoformat args env = mkRun (Uncaught e) (Some content) None
      /\ exit_code (run_ending (main fromisoformat isoformat args env)) = 1).
  { intros e Hraise args env email Hfile Hforce Htest Hemail.
    assert (Hrun : main fromisoformat isoformat args env
                   = mkRun (Uncaught e) (Some content) None).
    { unfold main. rewrite Hemail, Hforce, Htest, Hfile; cbn. now rewrite Hraise. }
    split; [exact Hrun | now rewrite Hrun]. }
  assert (Hall : forall e,
    (forall hours now, should_spin fromisoformat hours (Some content) now = Raise e) ->
    (forall e', content = Unreadable e' -> e = e') ->
    (content = Undecodable -> exn_cls e = UnicodeDecodeError) ->
    (forall raw, content = NotJson raw -> exn_cls e = JSONDecodeError) ->
    (forall j, content = Document j ->
               (forall members, j <> JObj members) -> exn_cls e = AttributeError) ->
    (forall members, content = Document (JObj members) -> exn_cls e = TypeError) ->
    exists e0,
      (forall e', content = Unreadable e' -> e0 = e')
      /\ (content = Undecodable -> exn_cls e0 = UnicodeDecodeError)
      /\ (forall raw, content = NotJson raw -> exn_cls e0 = JSONDecodeError)
      /\ (forall j, content = Document j ->
                    (forall members, j <> JObj members) -> exn_cls e0 = AttributeError)
      /\ (forall members, content = Document (JObj members) -> exn_cls e0 = TypeError)
      /\ (forall hours now, should_spin fromisoformat hours (Some content) now = Raise e0)
      /\ (forall args env email,
            env_state_file env = Some content ->
            args_force args = false -> args_test args = false ->
            choose_email args env = Some email ->
            main fromisoformat isoformat args env = mkRun (Uncaught e0) (Some content) None
            /\ exit_code (run_ending (main fromisoformat isoformat args env)) = 1)).
  { intros e Hraise H1 H2 H3 H4 H5. exists e.
    repeat (split; [assumption|]). now apply Hmain. }
  destruct content as [j | raw | | e0].
  - destruct j as [| b | n | s | items | members].
    6:{ apply (Hall (mkExn TypeError "fromisoformat: argument must be str")).
        - intros hours now. unfold should_spin; cbn. cbn in Hbad.
          destruct (lookup "last_spin" members) as [[| b | n | s | items | ms]|];
            try discriminate; reflexivity.
        - discriminate.
        - discriminate.
        - discriminate.
        - intros j Hj Hno. inversion Hj; subst j. now elim (Hno members).
        - reflexivity. }
    all: apply (Hall (mkExn AttributeError "object has no attribute 'get'"));
      [ reflexivity | discriminate | discriminate | discriminate
      | reflexivity | discriminate ].
  - apply (Hall (mkExn JSONDecodeError "Expecting value"));
      [ reflexivity | discriminate | discriminate | reflexivity
      | discriminate | discriminate ].
  - apply (Hall (mkExn UnicodeDecodeError "codec can't decode byte: invalid start byte"));
      [ reflexivity | discriminate | reflexivity | discriminate
      | discriminate | discriminate ].
  - apply (Hall e0);
      [ reflexivity | intros e' H; now inversion H | discriminate | discriminate
      | discriminate | discriminate ].
Qed.

(** ** How a run can end *)

(** X4.  The run ends on the missing email exactly when the test flag is off
    and FWP_EMAIL is unset or empty; the force flag does not help. *)
Theorem missing_email_iff (args : Args) (env : Env) :
  run_ending (main fromisoformat isoformat args env) = MissingEmail
  <-> args_test args = false
      /\ (env_FWP_EMAIL env = None \/ env_FWP_EMAIL env = Some "").
Proof.
  assert (Hnot : forall email,
    run_ending (attempt_spin isoformat args env email) <> MissingEmail).
  { intros email H.
    destruct (attempt_spin_endings args env email) as [Hc | [e [Hc | Hc]]];
      rewrite Hc in H; discriminate. }
  unfold main, choose_email.
  destruct (args_test args).
  - rewrite andb_false_r. split; [intros H; now apply Hnot in H | intros [H _]; discriminate].
  - destruct (env_FWP_EMAIL env) as [[|c email]|]; cbn.
    + split; auto.
    + split.
      * destruct (negb (args_force args) && true).
        -- destruct (should_spin _ _ _ _) as [[|]|e]; try discriminate.
           intros H; now apply Hnot in H.
        -- intros H; now apply Hnot in H.
      * intros [_ [H | H]]; discriminate.
    + split; auto.
Qed.

(** X5.  An exception leaves [main] uncaught only from the gate: the run
    ends on an uncaught [e] exactly when an email is there, neither flag is
    set and [should_spin] raises [e].  Whatever [perform_spin] or
    [save_last_spin] raise is caught by the handler. *)
Theorem uncaught_only_from_gate (args : Args) (env : Env) (e : exn) :
  run_ending (main fromisoformat isoformat args env) = Uncaught e
  <-> (exists email, choose_email args env = Some email)
      /\ args_force args = false /\ args_test args = false
      /\ should_spin fromisoformat SPIN_INTERVAL_HOURS (env_state_file env)
                     (env_now_gate env) = Raise e.
Proof.
  assert (Hnot : forall email,
    run_ending (attempt_spin isoformat args env email) <> Uncaught e).
  { intros email H.
    destruct (attempt_spin_endings args env email) as [Hc | [e' [Hc | Hc]]];
      rewrite Hc in H; discriminate. }
  unfold main.
  destruct (choose_email args env) as [email|].
  - destruct (args_force args), (args_test args); cbn;
      try (split; [intros H; now apply Hnot in H
                  | intros (_ & Hf & Ht & _); discriminate]).
    destruct (should_spin _ _ _ _) as [[|]|e']; cbn.
    + split; [intros H; now apply Hnot in H | intros (_ & _ & _ & H); discriminate].
    + split; [discriminate | intros (_ & _ & _ & H); discriminate].
    + split.
      * intros H. inversion H. repeat split; auto. now exists email.
      * intros (_ & _ & _ & H). now inversion H.
  - cbn. split; [discriminate | intros ([email H] & _); discriminate].
Qed.

(** X6.  The browser is left alone ([perform_spin] is not called) exactly
    when no email is there, or neither flag is set and the gate does not
    answer eligible; when it is called, it is with the chosen email. *)
Theorem browser_untouched_iff (args : Args) (env : Env) :
  (run_attempt (main fromisoformat isoformat args env) = None
   <-> choose_email args env = None
       \/ (args_force args = false /\ args_test args = false
           /\ should_spin fromisoformat SPIN_INTERVAL_HOURS (env_state_file env)
                          (env_now_gate env) <> Ok true))
  /\ (forall email,
        run_attempt (main fromisoformat isoformat args env) = Some email ->
        choose_email args env = Some email).
Proof.
  unfold main.
  destruct (choose_email args env) as [email|]; cbn.
  - destruct (args_force args), (args_test args); cbn;
      try (rewrite attempt_spin_attempts; split;
           [split; [discriminate | intros [H | (Hf & Ht & _)]; discriminate]
           | intros email' H; exact H]).
    destruct (should_spin _ _ _ _) as [[|]|e]; cbn.
    + rewrite attempt_spin_attempts. split.
      * split; [discriminate|]. intros [H | (_ & _ & H)]; [discriminate | now elim H].
      * intros email' H; exact H.
    + split; [|discriminate]. split; auto. intros _. right. repeat split; discriminate.
    + split; [|discriminate]. split; auto. intros _. right. repeat split; discriminate.
  - split; [|discriminate]. split; auto.
Qed.

(** X7.  The state file changes only inside [save_last_spin]: after any
    run it is as the run found it, unless the test flag is off,
    [perform_spin] returned and the file was opened for writing; then it
    holds the fresh record if the writing completed, the run completing
    too, and what the failed writing left otherwise, the run ending as the
    handler reads that failure.  So a run that does not complete leaves the
    file alone unless a writing that had begun failed. *)
Theorem state_file_changes_only_by_saving (args : Args) (env : Env) :
  (run_state_file (main fromisoformat isoformat args env) = env_state_file env
   \/ (args_test args = false
       /\ exists email spin_result,
            perform_spin (env_session env) email (negb (args_no_headless args))
                         (args_debug args) (args_pause args) = Ok spin_result
            /\ ((env_write env = Written
                 /\ run_ending (main fromisoformat isoformat args env) = Completed
                 /\ run_state_file (main fromisoformat isoformat args env)
                    = Some (fresh_record isoformat (env_now_save env) spin_result))
                \/ (exists e remains,
                      env_write env = WriteFails e remains
                      /\ run_ending (main fromisoformat isoformat args env) = classify e
                      /\ run_state_file (main fromisoformat isoformat args env)
                         = Some remains))))
  /\ (run_ending (main fromisoformat isoformat args env) <> Completed ->
      (forall e remains, env_write env <> WriteFails e remains) ->
      run_state_file (main fromisoformat isoformat args env) = env_state_file env).
Proof.
  assert (Hattempt : forall email,
    run_state_file (attempt_spin isoformat args env email) = env_state_file env
    \/ (args_test args = false
        /\ exists spin_result,
             perform_spin (env_session env) email (negb (args_no_headless args))
                          (args_debug args) (args_pause args) = Ok spin_result
             /\ ((env_write env = Written
                  /\ run_ending (attempt_spin isoformat args env email) = Completed
                  /\ run_state_file (attempt_spin isoformat args env email)
                     = Some (fresh_record isoformat (env_now_save env) spin_result))
                 \/ (exists e remains,
                       env_write env = WriteFails e remains
                       /\ run_ending (attempt_spin isoformat args env email) = classify e
                       /\ run_state_file (attempt_spin isoformat args env email)
                          = Some remains)))).
  { intros email. unfold attempt_spin, save_last_spin.
    destruct (perform_spin _ _ _ _ _) as [r|e]; [|now left].
    destruct (args_test args); cbn; [now left|].
    destruct (env_write env) as [|e|e remains]; cbn.
    - right. split; [reflexivity|]. exists r. split; [reflexivity|]. left. now repeat split.
    - now left.
    - right. split; [reflexivity|]. exists r. split; [reflexivity|].
      right. exists e, remains. now repeat split. }
  assert (Hmain : run_state_file (main fromisoformat isoformat args env) = env_state_file env
    \/ exists email, main fromisoformat isoformat args env = attempt_spin isoformat args env email).
  { unfold main.
    destruct (choose_email args env) as [email|]; [|now left].
    destruct (negb (args_force args) && negb (args_test args)); [|right; now exists email].
    destruct (should_spin _ _ _ _) as [[|]|e]; try (now left). right; now exists email. }
  assert (Hfirst :
    run_state_file (main fromisoformat isoformat args env) = env_state_file env
    \/ (args_test args = false
        /\ exists email spin_result,
             perform_spin (env_session env) email (negb (args_no_headless args))
                          (args_debug args) (args_pause args) = Ok spin_result
             /\ ((env_write env = Written
                  /\ run_ending (main fromisoformat isoformat args env) = Completed
                  /\ run_state_file (main fromisoformat isoformat args env)
                     = Some (fresh_record isoformat (env_now_save env) spin_result))
                 \/ (exists e remains,
                       env_write env = WriteFails e remains
                       /\ run_ending (main fromisoformat isoformat args env) = classify e
                       /\ run_state_file (main fromisoformat isoformat args env)
                          = Some remains)))).
  { destruct Hmain as [Hsame | [email Heq]]; [now left|].
    rewrite Heq. destruct (Hattempt email) as [Hsame | (Htest & r & Hr & Hcases)].
    - now left.
    - right. split; [exact Htest|]. now exists email, r. }
  split; [exact Hfirst|].
  intros Hnot Hnofail.
  destruct Hfirst as [Hsame | (_ & email & r & _ & [(_ & Hdone & _) | (e & remains & Hw & _)])].
  - exact Hsame.
  - contradiction.
  - now elim (Hnofail e remains).
Qed.

(** X8.  A run completes exactly when an email is there, the gate is
    bypassed by a flag or answers eligible, [perform_spin] returns, and the
    writing of the state file (the opening, [json.dump] and the closing)
    completes unless the test flag makes it unnecessary. *)
Theorem run_completes_iff (args : Args) (env : Env) :
  run_ending (main fromisoformat isoformat args env) = Completed
  <-> exists email,
        choose_email args env = Some email
        /\ (args_force args = true \/ args_test args = true
            \/ should_spin fromisoformat SPIN_INTERVAL_HOURS (env_state_file env)
                           (env_now_gate env) = Ok true)
        /\ (exists spin_result,
              perform_spin (env_session env) email (negb (args_no_headless args))
                           (args_debug args) (args_pause args) = Ok spin_result)
        /\ (args_test args = true \/ env_write env = Written).
Proof.
  assert (Hattempt : forall email,
    run_ending (attempt_spin isoformat args env email) = Completed
    <-> (exists spin_result,
           perform_spin (env_session env) email (negb (args_no_headless args))
                        (args_debug args) (args_pause args) = Ok spin_result)
        /\ (args_test args = true \/ env_write env = Written)).
  { intros email. unfold attempt_spin, save_last_spin.
    destruct (perform_spin _ _ _ _ _) as [r|e].
    - destruct (args_test args); cbn.
      + split; [intros _; split; [now exists r | now left] | reflexivity].
      + destruct (env_write env) as [|e|e remains]; cbn.
        * split; [intros _; split; [now exists r | now right] | reflexivity].
        * split.
          -- intros H. now apply classify_not_completed in H.
          -- intros [_ [H | H]]; discriminate.
        * split.
          -- intros H. now apply classify_not_completed in H.
          -- intros [_ [H | H]]; discriminate.
    - split.
      + intros H. now apply classify_not_completed in H.
      + intros [[r H] _]. discriminate. }
  split.
  - unfold main.
    destruct (choose_email args env) as [email|]; [|discriminate].
    destruct (args_force args) eqn:Hf, (args_test args) eqn:Ht; cbn;
      try (intros H; exists email; apply Hattempt in H;
           rewrite ?Ht in H; destruct H as [Hr Hw];
           repeat split; auto; fail).
    destruct (should_spin _ _ _ _) as [[|]|e] eqn:Hg; try discriminate.
    intros H. exists email. apply Hattempt in H. rewrite ?Ht in H.
    destruct H as [Hr Hw]. repeat split; auto.
  - intros (email & Hemail & Hgate & Hr & Hw).
    rewrite (main_reaches_attempt fromisoformat isoformat args env email Hemail Hgate).
    now apply Hattempt.
Qed.

End Coverage.

(** ** What [perform_spin] needs to return *)

Lemma find_spin_button_none (target_frame : Frame) (selectors : list string) :
  (forall selector,
      In selector selectors -> visible_first_match target_frame selector = None) ->
  find_spin_button target_frame selectors = None.
Proof.
  intros Hnone. rewrite find_spin_button_scan.
  pose proof (first_some_spec (visible_first_match target_frame) selectors) as H.
  destruct (first_some (visible_first_match target_frame) selectors) as [b|];
    [|reflexivity].
  destruct H as (j & selector & Hj & Hsel & _).
  rewrite Hnone in Hsel; [discriminate|]. eapply nth_error_In; eauto.
Qed.

(** X9.  [perform_spin] returns exactly when every mandatory step
    succeeds: the directory, the launch, the navigation, the snapshots of
    [--debug] when asked for, an email input that is found, becomes visible
    and is filled, a spin button that is found in the same frame and
    clicked, the final snapshot and the closing of the browser; what it
    returns is then the captured text.  The reading of the result text can
    fail without harm. *)
Theorem perform_spin_returns_iff
    (ses : Session) (email : string) (headless debug : bool) (pause : Z)
    (spin_result : option string) :
  perform_spin ses email headless debug pause = Ok spin_result
  <-> ses_mkdir ses = Ok tt
      /\ ses_launch ses headless = Ok tt
      /\ ses_goto ses = Ok tt
      /\ (debug = true ->
          forall name, In name DEBUG_SCREENSHOTS -> ses_screenshot ses name = Ok tt)
      /\ (exists email_input target_frame spin_button,
            find_email_input (ses_frames ses) EMAIL_INPUT_SELECTORS
              = Some (email_input, target_frame)
            /\ el_wait_for_visible email_input = Ok tt
            /\ el_fill email_input email = Ok tt
            /\ find_spin_button target_frame SPIN_BUTTON_SELECTORS = Some spin_button
            /\ el_click spin_button = Ok tt)
      /\ ses_screenshot ses "spin_result.png" = Ok tt
      /\ ses_close ses = Ok tt
      /\ spin_result = capture_result ses.
Proof.
  split; [apply perform_spin_returns_steps|].
  intros (Hmkdir & Hlaunch & Hgoto & Hdebug
            & (email_input & target_frame & spin_button
               & Hemail & Hwait & Hfill & Hbutton & Hclick)
            & Hshot & Hclose & ->).
    assert (Hd : forall name, In name DEBUG_SCREENSHOTS ->
                              debug_screenshot ses debug name = Ok tt).
    { intros name Hin. unfold debug_screenshot. destruct debug; auto. }
    unfold perform_spin, try_finally, snapshot_and_reraise, spin_steps.
    rewrite Hmkdir, Hlaunch, Hclose, Hgoto; cbn [bind].
    rewrite !Hd by (cbn; auto 10); cbn [bind].
    rewrite Hemail, Hwait; cbn [bind]. rewrite Hfill; cbn [bind].
    rewrite Hbutton, Hclick; cbn [bind].
    now rewrite Hshot.
Qed.

(** X10.  When the email input is found, becomes visible and is filled, and
    no candidate of [SPIN_BUTTON_SELECTORS] has a visible first element in
    that same frame, [perform_spin] raises "Could not find spin/submit
    button" (the snapshots and the closing succeeding), whatever the other
    frames hold, and the run that got there ends with status 1. *)
Theorem missing_button_is_fatal
    (ses : Session) (email : string) (headless debug : bool) (pause : Z)
    (email_input : Element) (target_frame : Frame) :
  ses_mkdir ses = Ok tt -> ses_launch ses headless = Ok tt -> ses_goto ses = Ok tt ->
  (forall name, ses_screenshot ses name = Ok tt) -> ses_close ses = Ok tt ->
  find_email_input (ses_frames ses) EMAIL_INPUT_SELECTORS
    = Some (email_input, target_frame) ->
  el_wait_for_visible email_input = Ok tt ->
  el_fill email_input email = Ok tt ->
  (forall selector,
      In selector SPIN_BUTTON_SELECTORS ->
      visible_first_match target_frame selector = None) ->
  perform_spin ses email headless debug pause = Raise no_spin_button
  /\ classify no_spin_button = SpinFailed no_spin_button
  /\ exit_code (classify no_spin_button) = 1.
Proof.
  intros Hmkdir Hlaunch Hgoto Hshot Hclose Hemail Hwait Hfill Hnone.
  split; [|split; reflexivity].
  assert (Hsteps : spin_steps ses email debug = Raise no_spin_button).
  { unfold spin_steps, debug_screenshot.
    rewrite Hgoto, Hemail, Hwait, Hfill, (find_spin_button_none _ _ Hnone).
    destruct debug; rewrite ?Hshot; reflexivity. }
  unfold perform_spin, try_finally, snapshot_and_reraise.
  rewrite Hmkdir, Hlaunch, Hclose, Hsteps; cbn. now rewrite Hshot.
Qed.

Section Sequences.

Variable fromisoformat : string -> result datetime.
Variable isoformat : datetime -> string.

(** X11.  A failure of [browser.close()] wins over everything that came
    before: once the browser is launched, [perform_spin] raises the
    exception of the closing even when the spin itself went through; the
    run then keeps the state file as it was and ends as the handler reads
    the message of that exception. *)
Theorem close_failure_masks_the_spin
    (args : Args) (env : Env) (email : string) (e : exn) :
  choose_email args env = Some email ->
  args_force args = true \/ args_test args = true \/
    should_spin fromisoformat SPIN_INTERVAL_HOURS (env_state_file env) (env_now_gate env)
      = Ok true ->
  ses_mkdir (env_session env) = Ok tt ->
  ses_launch (env_session env) (negb (args_no_headless args)) = Ok tt ->
  ses_close (env_session env) = Raise e ->
  perform_spin (env_session env) email (negb (args_no_headless args))
               (args_debug args) (args_pause args) = Raise e
  /\ main fromisoformat isoformat args env
     = mkRun (classify e) (env_state_file env) (Some email).
Proof.
  intros Hemail Hgate Hmkdir Hlaunch Hclose.
  assert (Hspin : perform_spin (env_session env) email (negb (args_no_headless args))
                               (args_debug args) (args_pause args) = Raise e).
  { unfold perform_spin, try_finally. now rewrite Hmkdir, Hlaunch, Hclose. }
  split; [exact Hspin|].
  rewrite (main_reaches_attempt fromisoformat isoformat args env email Hemail Hgate).
  unfold attempt_spin. now rewrite Hspin.
Qed.

(** ** From one run to the next *)

Lemma gate_on_fresh_record
    (hours : Q) (saved_at now : Z) (spin_result : option string) :
  fromisoformat (isoformat (now_utc saved_at)) = Ok (now_utc saved_at) ->
  should_spin fromisoformat hours (Some (fresh_record isoformat saved_at spin_result)) now
  = Ok (timedelta_hours hours <=? now - saved_at).
Proof.
  intros Hback. unfold should_spin, fresh_record; cbn. rewrite Hback; cbn.
  unfold utc_instant.
  replace (now - 0 - (saved_at - 0)) with (now - saved_at) by lia.
  now destruct (timedelta_hours hours <=? now - saved_at).
Qed.

Lemma completed_run_leaves_fresh_record (args : Args) (env : Env) :
  args_test args = false ->
  run_ending (main fromisoformat isoformat args env) = Completed ->
  exists spin_result,
    run_state_file (main fromisoformat isoformat args env)
    = Some (fresh_record isoformat (env_now_save env) spin_result).
Proof.
  intros Htest.
  assert (Hattempt : forall email,
    run_ending (attempt_spin isoformat args env email) = Completed ->
    exists spin_result,
      run_state_file (attempt_spin isoformat args env email)
      = Some (fresh_record isoformat (env_now_save env) spin_result)).
  { intros email. unfold attempt_spin, save_last_spin. rewrite Htest; cbn.
    destruct (perform_spin _ _ _ _ _) as [r|e]; cbn.
    - destruct (env_write env) as [|e|e remains]; cbn.
      + intros _. now exists r.
      + intros H. now apply classify_not_completed in H.
      + intros H. now apply classify_not_completed in H.
    - intros H. now apply classify_not_completed in H. }
  unfold main.
  destruct (choose_email args env) as [email|]; [|discriminate].
  destruct (negb (args_force args) && negb (args_test args)); [|apply Hattempt].
  destruct (should_spin _ _ _ _) as [[|]|e]; try discriminate. apply Hattempt.
Qed.

(** X12.  What [save_last_spin] writes, [should_spin] reads back: on the
    record saved at [saved_at] the gate does not raise and answers eligible
    exactly when [now - saved_at >= timedelta(hours)], provided the library
    parses the timestamp it printed. *)
Theorem saved_record_gates_next_run
    (hours : Q) (write : write_outcome) (before : option file_content)
    (saved_at now : Z) (spin_result : option string) (file : file_content) :
  fromisoformat (isoformat (now_utc saved_at)) = Ok (now_utc saved_at) ->
  save_last_spin isoformat write before saved_at spin_result = (Some file, Ok tt) ->
  exists eligible : bool,
    should_spin fromisoformat hours (Some file) now = Ok eligible
    /\ (eligible = true <-> now - saved_at >= timedelta_hours hours).
Proof.
  intros Hback Hsave. unfold save_last_spin in Hsave.
  destruct write as [|e|e remains]; try discriminate.
  inversion Hsave; subst file.
  exists (timedelta_hours hours <=? now - saved_at). split.
  - apply (gate_on_fresh_record hours saved_at now spin_result Hback).
  - rewrite Z.leb_le. lia.
Qed.

(** X13.  After a run without the test flag has completed, a later run
    with neither flag that finds the file this run left is skipped, with no
    browser started and the file untouched, as long as less than the
    interval has passed since the saving, and goes on to the spin attempt
    from then on. *)
Theorem rerun_after_completed_run
    (args1 args2 : Args) (env1 env2 : Env) (email : string) :
  fromisoformat (isoformat (now_utc (env_now_save env1)))
    = Ok (now_utc (env_now_save env1)) ->
  args_test args1 = false ->
  run_ending (main fromisoformat isoformat args1 env1) = Completed ->
  env_state_file env2 = run_state_file (main fromisoformat isoformat args1 env1) ->
  args_force args2 = false -> args_test args2 = false ->
  choose_email args2 env2 = Some email ->
  (env_now_gate env2 - env_now_save env1 < timedelta_hours SPIN_INTERVAL_HOURS ->
   main fromisoformat isoformat args2 env2 = mkRun Skipped (env_state_file env2) None)
  /\ (env_now_gate env2 - env_now_save env1 >= timedelta_hours SPIN_INTERVAL_HOURS ->
      main fromisoformat isoformat args2 env2 = attempt_spin isoformat args2 env2 email).
Proof.
  intros Hback Htest1 Hdone Hfile Hforce Htest Hemail.
  destruct (completed_run_leaves_fresh_record args1 env1 Htest1 Hdone) as [r Hfresh].
  rewrite Hfresh in Hfile.
  pose proof (gate_on_fresh_record SPIN_INTERVAL_HOURS (env_now_save env1)
                (env_now_gate env2) r Hback) as Hgate.
  rewrite <- Hfile in Hgate.
  unfold main. rewrite Hemail, Hforce, Htest, Hgate; cbn [negb andb].
  split; intros Htime.
  - assert (Hle : (timedelta_hours SPIN_INTERVAL_HOURS
                   <=? env_now_gate env2 - env_now_save env1) = false)
      by (apply Z.leb_gt; lia).
    now rewrite Hle.
  - assert (Hle : (timedelta_hours SPIN_INTERVAL_HOURS
                   <=? env_now_gate env2 - env_now_save env1) = true)
      by (apply Z.leb_le; lia).
    now rewrite Hle.
Qed.

(** X14.  The configured interval is 24 hours and 15 minutes: a run with
    neither flag that finds a timezone-aware timestamp is skipped exactly
    when less than 87300 seconds have passed since that instant, and calls
    [perform_spin] exactly from that moment on. *)
Theorem plain_run_skipped_iff_recent
    (args : Args) (env : Env) (email : string)
    (members : list (string * json)) (text : string) (t off : Z) :
  args_force args = false -> args_test args = false ->
  choose_email args env = Some email ->
  env_state_file env = Some (Document (JObj members)) ->
  lookup "last_spin" members = Some (JStr text) ->
  fromisoformat text = Ok (mkDatetime t (Some off)) ->
  (run_ending (main fromisoformat isoformat args env) = Skipped
   <-> env_now_gate env - utc_instant t off < 87300 * us_per_second)
  /\ (run_attempt (main fromisoformat isoformat args env) = Some email
      <-> env_now_gate env - utc_instant t off >= 87300 * us_per_second).
Proof.
  intros Hforce Htest Hemail Hfile Hlook Hparse.
  assert (Hgate : should_spin fromisoformat SPIN_INTERVAL_HOURS (env_state_file env)
                              (env_now_gate env)
                  = Ok (87300 * us_per_second <=? env_now_gate env - utc_instant t off)).
  { rewrite Hfile. unfold should_spin; cbn. rewrite Hlook; cbn. rewrite Hparse; cbn.
    unfold utc_instant.
    replace (env_now_gate env - 0 - (t - off)) with (env_now_gate env - (t - off)) by lia.
    change (timedelta_hours SPIN_INTERVAL_HOURS) with 87300000000.
    change (87300 * us_per_second) with 87300000000.
    now destruct (87300000000 <=? env_now_gate env - (t - off)). }
  unfold main. rewrite Hemail, Hforce, Htest, Hgate; cbn [negb andb].
  destruct (87300 * us_per_second <=? env_now_gate env - utc_instant t off) eqn:Hle.
  - apply Z.leb_le in Hle. rewrite attempt_spin_attempts. split.
    + split.
      * intros H.
        destruct (attempt_spin_endings isoformat args env email)
          as [Hc | [e [Hc | Hc]]]; rewrite Hc in H; discriminate.
      * intros Hlt. exfalso. lia.
    + split; [intros _; lia | reflexivity].
  - apply Z.leb_gt in Hle. cbn [run_ending run_attempt]. split.
    + split; [intros _; lia | reflexivity].
    + split; [discriminate | intros Hge; exfalso; lia].
Qed.

End Sequences.

(** ** Dismissing the modal *)

Lemma click_close_spec (frame : Frame) (selector : string) :
  match click_close frame selector with
  | (Some b, returned) =>
      el_is_visible b = Ok true
      /\ (returned = true <-> el_click b = Ok tt)
  | (None, returned) => returned = false
  end.
Proof.
  unfold click_close.
  destruct (frame_locate frame selector) as [[|b others]|e]; auto.
  destruct (el_is_visible b) as [[|]|e] eqn:Hvis; auto.
  split; [exact Hvis|].
  destruct (el_click b) as [[]|e] eqn:Hclick; split; auto; discriminate.
Qed.

Lemma close_modal_pass_spec
    (wanted : named_frame -> bool) (selector : string) (frames : list named_frame) :
  Forall (fun b => el_is_visible b = Ok true)
         (fst (close_modal_pass wanted selector frames))
  /\ (snd (close_modal_pass wanted selector frames) = true ->
      exists init b,
        fst (close_modal_pass wanted selector frames) = (init ++ [b])%list
        /\ el_click b = Ok tt
        /\ Forall (fun x => el_click x <> Ok tt) init)
  /\ (snd (close_modal_pass wanted selector frames) = false ->
      Forall (fun x => el_click x <> Ok tt)
             (fst (close_modal_pass wanted selector frames))).
Proof.
  induction frames as [|nf rest IH]; cbn.
  - repeat split; auto. discriminate.
  - destruct (wanted nf); [|exact IH].
    pose proof (click_close_spec (snd nf) selector) as Hc.
    destruct (click_close (snd nf) selector) as [[b|] returned].
    + destruct Hc as [Hvis Hret]. destruct returned; cbn.
      * repeat split; auto.
        -- intros _. exists [], b. repeat split; auto. now apply Hret.
        -- discriminate.
      * destruct (close_modal_pass wanted selector rest) as [clicks closed]; cbn in *.
        destruct IH as (IHvis & IHclosed & IHopen).
        assert (Hfail : el_click b <> Ok tt).
        { intros H. apply Hret in H. discriminate. }
        repeat split; auto.
        -- intros Hcl. destruct (IHclosed Hcl) as (init & last & -> & Hok & Hinit).
           exists (b :: init), last. repeat split; auto.
    + subst returned.
      destruct (close_modal_pass wanted selector rest) as [clicks closed]; cbn in *.
      exact IH.
Qed.

(** X15.  The dismissal of the modal clicks only close buttons that answer
    visible, and a click that returns ends it: when it reports the modal
    closed, the last click of all is the only one that returned; when it
    does not, no click returned. *)
Theorem dismiss_modal_stops_at_first_click (frames : list named_frame) :
  Forall (fun b => el_is_visible b = Ok true) (fst (dismiss_modal frames))
  /\ (snd (dismiss_modal frames) = true ->
      exists init b,
        fst (dismiss_modal frames) = (init ++ [b])%list
        /\ el_click b = Ok tt
        /\ Forall (fun x => el_click x <> Ok tt) init)
  /\ (snd (dismiss_modal frames) = false ->
      Forall (fun x => el_click x <> Ok tt) (fst (dismiss_modal frames))).
Proof.
  unfold dismiss_modal.
  pose proof (close_modal_pass_spec is_rivo MODAL_CLOSE_BUTTON frames) as H1.
  pose proof (close_modal_pass_spec (fun _ => true) ANY_CLOSE_BUTTON frames) as H2.
  destruct (close_modal_pass is_rivo MODAL_CLOSE_BUTTON frames) as [clicks1 closed1].
  destruct (close_modal_pass (fun _ => true) ANY_CLOSE_BUTTON frames)
    as [clicks2 closed2].
  cbn in *. destruct H1 as (Hvis1 & Hclosed1 & Hopen1).
  destruct H2 as (Hvis2 & Hclosed2 & Hopen2).
  destruct closed1; cbn.
  - repeat split; auto; discriminate.
  - specialize (Hopen1 eq_refl). repeat split.
    + apply Forall_app. auto.
    + intros Hcl. destruct (Hclosed2 Hcl) as (init & b & -> & Hok & Hinit).
      exists (clicks1 ++ init)%list, b. repeat split; auto.
      * now rewrite app_assoc.
      * apply Forall_app. auto.
    + intros Hcl. apply Forall_app. auto.
Qed.

Lemma close_modal_pass_closes
    (wanted : named_frame -> bool) (selector : string) (frames : list named_frame) :
  (exists nf, In nf frames /\ wanted nf = true
              /\ snd (click_close (snd nf) selector) = true) ->
  snd (close_modal_pass wanted selector frames) = true.
Proof.
  induction frames as [|nf rest IH]; intros (x & Hin & Hw & Hc).
  - destruct Hin.
  - cbn. destruct Hin as [<- | Hin].
    + rewrite Hw. destruct (click_close (snd nf) selector) as [attempt returned].
      cbn in Hc. now subst returned.
    + assert (Hrest : snd (close_modal_pass wanted selector rest) = true)
        by (apply IH; now exists x).
      destruct (wanted nf); [|exact Hrest].
      destruct (click_close (snd nf) selector) as [attempt [|]]; [reflexivity|].
      destruct (close_modal_pass wanted selector rest); exact Hrest.
Qed.

(** X16.  The dismissal reports the modal closed whenever some frame of the
    page, of the Rivo widget or not, holds a visible first close button
    (by class or by the label "Close modal") whose click returns. *)
Theorem dismiss_modal_closes_when_possible
    (frames : list named_frame) (nf : named_frame) (close_btn : Element)
    (others : list Element) :
  In nf frames ->
  frame_locate (snd nf) ANY_CLOSE_BUTTON = Ok (close_btn :: others) ->
  el_is_visible close_btn = Ok true ->
  el_click close_btn = Ok tt ->
  snd (dismiss_modal frames) = true.
Proof.
  intros Hin Hlocate Hvis Hclick. unfold dismiss_modal.
  assert (Hpass : snd (close_modal_pass (fun _ => true) ANY_CLOSE_BUTTON frames) = true).
  { apply close_modal_pass_closes. exists nf. repeat split; auto.
    unfold click_close. now rewrite Hlocate, Hvis, Hclick. }
  destruct (close_modal_pass is_rivo MODAL_CLOSE_BUTTON frames) as [clicks1 [|]];
    [reflexivity|].
  destruct (close_modal_pass (fun _ => true) ANY_CLOSE_BUTTON frames); exact Hpass.
Qed.

(** ** The result text *)

Lemma append_empty_r (s : string) : (s ++ "")%string = s.
Proof. induction s as [|c s IH]; cbn; [reflexivity | now rewrite IH]. Qed.

Lemma append_assoc (a b c : string) :
  ((a ++ b) ++ c)%string = (a ++ b ++ c)%string.
Proof. induction a as [|x a IH]; cbn; [reflexivity | now rewrite IH]. Qed.

(** X17.  Neither read of the result text loses what the other one got: a
    non-empty header that was read always opens the captured text, and a
    win text that was read always closes it, whether the other read
    succeeds, finds nothing or raises. *)
Theorem capture_result_keeps_what_was_read (ses : Session) :
  (forall c header_rest,
      ses_header_visible ses = Ok true ->
      ses_header_text ses = Ok (Some (String c header_rest)) ->
      exists rest, capture_result ses = Some (String c header_rest ++ rest)%string)
  /\ (forall win_text_content,
        ses_win_visible ses = Ok true ->
        ses_win_text ses = Ok (Some win_text_content) ->
        exists before, capture_result ses = Some (before ++ win_text_content)%string).
Proof.
  split.
  - intros c header_rest Hvis Htext. unfold capture_result.
    rewrite Hvis, Htext.
    assert (Halone : exists rest,
              Some (String c header_rest) = Some (String c header_rest ++ rest)%string).
    { exists EmptyString. now rewrite append_empty_r. }
    destruct (ses_win_visible ses) as [[|]|e]; try exact Halone.
    destruct (ses_win_text ses) as [w|e]; [|exact Halone].
    cbn. eexists. reflexivity.
  - intros w Hvis Htext. unfold capture_result. rewrite Hvis, Htext.
    destruct (ses_header_visible ses) as [[|]|e];
      try (exists EmptyString; reflexivity).
    destruct (ses_header_text ses) as [[[|c h]|]|e];
      try (exists EmptyString; reflexivity).
    exists (String c h ++ " - ")%string.
    cbn [truthy fmt]. now rewrite append_assoc.
Qed.

(** ** The further properties at work on the sample inputs *)

Lemma handler_exits_zero_witness :
  exit_code (classify click_timeout) = 0
  /\ exists pre post,
       lower (str_of_exn click_timeout) = (pre ++ "not available" ++ post)%string.
Proof.
  split; [reflexivity|].
  apply (proj1 (proj1 (handler_exits_zero_iff_message_holds_the_words click_timeout))).
  reflexivity.
Defined.

Lemma gate_stays_open_witness :
  should_spin py_fromisoformat SPIN_INTERVAL_HOURS old_record t_next_day = Ok true
  /\ t_next_day <= t_next_day + us_per_day
  /\ should_spin py_fromisoformat SPIN_INTERVAL_HOURS old_record (t_next_day + us_per_day)
     = Ok true.
Proof.
  split; [reflexivity|]. split; [discriminate|].
  apply (gate_stays_open py_fromisoformat SPIN_INTERVAL_HOURS old_record
           t_next_day (t_next_day + us_per_day)); [reflexivity | discriminate].
Defined.

Lemma unreadable_state_file_witness :
  state_file_unreadable (Document (JObj [("last_spin", JNum 1730728800); ("result", JNull)]))
    = true
  /\ exists e,
       exn_cls e = TypeError
       /\ should_spin py_fromisoformat SPIN_INTERVAL_HOURS numeric_record t_next_day = Raise e
       /\ main py_fromisoformat py_isoformat plain_args (env_with numeric_record wheel_session)
          = mkRun (Uncaught e) numeric_record None.
Proof.
  split; [reflexivity|].
  destruct (unreadable_state_file_stops_plain_run py_fromisoformat py_isoformat
              (Document (JObj [("last_spin", JNum 1730728800); ("result", JNull)]))
              eq_refl) as (e & _ & _ & _ & _ & Htype & Hgate & Hrun).
  exists e. split; [now apply (Htype [("last_spin", JNum 1730728800); ("result", JNull)])|].
  split; [apply Hgate|].
  apply (Hrun plain_args (env_with numeric_record wheel_session) "me@example.com");
    reflexivity.
Defined.

Lemma missing_email_witness :
  args_test force_args = false
  /\ env_FWP_EMAIL (env_without_email None wheel_session) = None
  /\ run_ending (main py_fromisoformat py_isoformat force_args
                      (env_without_email None wheel_session)) = MissingEmail.
Proof.
  split; [reflexivity|]. split; [reflexivity|].
  apply (proj2 (missing_email_iff py_fromisoformat py_isoformat force_args
                  (env_without_email None wheel_session))).
  split; [reflexivity | left; reflexivity].
Defined.

Lemma uncaught_only_from_gate_witness :
  should_spin py_fromisoformat SPIN_INTERVAL_HOURS list_file t_next_day
    = Raise (mkExn AttributeError "object has no attribute 'get'")
  /\ run_ending (main py_fromisoformat py_isoformat plain_args
                      (env_with list_file wheel_session))
     = Uncaught (mkExn AttributeError "object has no attribute 'get'").
Proof.
  split; [reflexivity|].
  apply (proj2 (uncaught_only_from_gate py_fromisoformat py_isoformat plain_args
                  (env_with list_file wheel_session)
                  (mkExn AttributeError "object has no attribute 'get'"))).
  repeat split. now exists "me@example.com".
Defined.

Lemma browser_untouched_witness :
  should_spin py_fromisoformat SPIN_INTERVAL_HOURS recent_record t_next_day = Ok false
  /\ run_attempt (main py_fromisoformat py_isoformat plain_args
                       (env_with recent_record wheel_session)) = None.
Proof.
  split; [reflexivity|].
  apply (proj2 (proj1 (browser_untouched_iff py_fromisoformat py_isoformat plain_args
                         (env_with recent_record wheel_session)))).
  right. repeat split. discriminate.
Defined.

Lemma state_file_changes_only_by_saving_witness :
  run_ending (main py_fromisoformat py_isoformat force_args
                   (env_with recent_record no_button_session)) <> Completed
  /\ (forall e remains,
        env_write (env_with recent_record no_button_session) <> WriteFails e remains)
  /\ run_state_file (main py_fromisoformat py_isoformat force_args
                          (env_with recent_record no_button_session)) = recent_record
  /\ run_state_file (main py_fromisoformat py_isoformat force_args
                          (env_disk_full recent_record wheel_session))
     = Some (NotJson "").
Proof.
  assert (H : run_ending (main py_fromisoformat py_isoformat force_args
                               (env_with recent_record no_button_session)) <> Completed)
    by discriminate.
  assert (Hw : forall e remains,
             env_write (env_with recent_record no_button_session) <> WriteFails e remains)
    by discriminate.
  split; [exact H|]. split; [exact Hw|]. split.
  - apply (proj2 (state_file_changes_only_by_saving py_fromisoformat py_isoformat
                    force_args (env_with recent_record no_button_session)) H Hw).
  - reflexivity.
Defined.

Lemma run_completes_witness :
  choose_email plain_args (env_with old_record wheel_session) = Some "me@example.com"
  /\ should_spin py_fromisoformat SPIN_INTERVAL_HOURS old_record t_next_day = Ok true
  /\ run_ending (main py_fromisoformat py_isoformat plain_args
                      (env_with old_record wheel_session)) = Completed.
Proof.
  split; [reflexivity|]. split; [reflexivity|].
  apply (proj2 (run_completes_iff py_fromisoformat py_isoformat plain_args
                  (env_with old_record wheel_session))).
  exists "me@example.com". split; [reflexivity|]. split; [right; right; reflexivity|].
  split; [eexists; reflexivity | right; reflexivity].
Defined.

Lemma perform_spin_returns_witness :
  perform_spin wheel_session "me@example.com" true true 0
    = Ok (Some "CONGRATULATIONS! - 10% OFF")
  /\ ses_close wheel_session = Ok tt
  /\ Some "CONGRATULATIONS! - 10% OFF" = capture_result wheel_session.
Proof.
  split; [reflexivity|].
  destruct (proj1 (perform_spin_returns_iff wheel_session "me@example.com" true true 0
                     (Some "CONGRATULATIONS! - 10% OFF")) eq_refl)
    as (_ & _ & _ & _ & _ & _ & Hclose & Hresult).
  split; assumption.
Defined.

Lemma missing_button_witness :
  find_email_input (ses_frames no_button_session) EMAIL_INPUT_SELECTORS
    = Some (element 1 true, input_only_frame)
  /\ (forall selector,
        In selector SPIN_BUTTON_SELECTORS ->
        visible_first_match input_only_frame selector = None)
  /\ perform_spin no_button_session "me@example.com" true false 0 = Raise no_spin_button.
Proof.
  assert (Hnone : forall selector,
             In selector SPIN_BUTTON_SELECTORS ->
             visible_first_match input_only_frame selector = None).
  { intros selector [<- | [<- | [<- | [<- | [<- | []]]]]]; reflexivity. }
  split; [reflexivity|]. split; [exact Hnone|].
  apply (missing_button_is_fatal no_button_session "me@example.com" true false 0
           (element 1 true) input_only_frame);
    try reflexivity; exact Hnone.
Defined.

Lemma close_failure_witness :
  ses_close unclosed_session = Raise close_failure
  /\ perform_spin unclosed_session "me@example.com" true false 0 = Raise close_failure
  /\ main py_fromisoformat py_isoformat plain_args (env_with old_record unclosed_session)
     = mkRun (SpinFailed close_failure) old_record (Some "me@example.com").
Proof.
  split; [reflexivity|].
  apply (close_failure_masks_the_spin py_fromisoformat py_isoformat plain_args
           (env_with old_record unclosed_session) "me@example.com" close_failure);
    try reflexivity.
  right; right; reflexivity.
Defined.

Lemma saved_record_gates_next_run_witness :
  py_fromisoformat (py_isoformat (now_utc t_first)) = Ok (now_utc t_first)
  /\ save_last_spin py_isoformat Written old_record t_first None
     = (Some (fresh_record py_isoformat t_first None), Ok tt)
  /\ exists eligible : bool,
       should_spin py_fromisoformat SPIN_INTERVAL_HOURS
                   (Some (fresh_record py_isoformat t_first None)) t_next_day = Ok eligible
       /\ (eligible = true
           <-> t_next_day - t_first >= timedelta_hours SPIN_INTERVAL_HOURS).
Proof.
  split; [reflexivity|]. split; [reflexivity|].
  apply (saved_record_gates_next_run py_fromisoformat py_isoformat SPIN_INTERVAL_HOURS
           Written old_record t_first t_next_day None
           (fresh_record py_isoformat t_first None));
    reflexivity.
Defined.

Lemma rerun_after_completed_run_witness :
  run_ending (main py_fromisoformat py_isoformat plain_args
                   (env_with old_record wheel_session)) = Completed
  /\ main py_fromisoformat py_isoformat plain_args
          (env_an_hour_later
             (run_state_file (main py_fromisoformat py_isoformat plain_args
                                   (env_with old_record wheel_session))))
     = mkRun Skipped
             (run_state_file (main py_fromisoformat py_isoformat plain_args
                                   (env_with old_record wheel_session)))
             None.
Proof.
  split; [reflexivity|].
  apply (proj1 (rerun_after_completed_run py_fromisoformat py_isoformat
                  plain_args plain_args
                  (env_with old_record wheel_session)
                  (env_an_hour_later
                     (run_state_file (main py_fromisoformat py_isoformat plain_args
                                           (env_with old_record wheel_session))))
                  "me@example.com"
                  eq_refl eq_refl eq_refl eq_refl eq_refl eq_refl eq_refl)).
  reflexivity.
Defined.

Lemma plain_run_skipped_witness :
  lookup "last_spin" [("last_spin", JStr "2024-11-05T14:00:00+00:00");
                      ("result", JStr "CONGRATULATIONS!")]
    = Some (JStr "2024-11-05T14:00:00+00:00")
  /\ py_fromisoformat "2024-11-05T14:00:00+00:00"
     = Ok (mkDatetime (t_next_day - us_per_hour) (Some 0))
  /\ run_ending (main py_fromisoformat py_isoformat plain_args
                      (env_with recent_record wheel_session)) = Skipped.
Proof.
  split; [reflexivity|]. split; [reflexivity|].
  apply (proj2 (proj1 (plain_run_skipped_iff_recent py_fromisoformat py_isoformat
                         plain_args (env_with recent_record wheel_session)
                         "me@example.com"
                         [("last_spin", JStr "2024-11-05T14:00:00+00:00");
                          ("result", JStr "CONGRATULATIONS!")]
                         "2024-11-05T14:00:00+00:00" (t_next_day - us_per_hour) 0
                         eq_refl eq_refl eq_refl eq_refl eq_refl eq_refl))).
  reflexivity.
Defined.

Lemma dismiss_modal_witness :
  map el_id (fst (dismiss_modal popup_frames)) = [11%nat; 12%nat]
  /\ snd (dismiss_modal popup_frames) = true
  /\ exists init b,
       fst (dismiss_modal popup_frames) = (init ++ [b])%list
       /\ el_click b = Ok tt
       /\ Forall (fun x => el_click x <> Ok tt) init.
Proof.
  split; [reflexivity|]. split; [reflexivity|].
  apply (proj1 (proj2 (dismiss_modal_stops_at_first_click popup_frames))).
  reflexivity.
Defined.

Lemma dismiss_modal_closes_witness :
  frame_locate (frame_of "https://shop.example/popup"
                         [ (ANY_CLOSE_BUTTON, [element 13 true]) ]) ANY_CLOSE_BUTTON
    = Ok [element 13 true]
  /\ close_modal_pass is_rivo MODAL_CLOSE_BUTTON fallback_frames = ([], false)
  /\ snd (dismiss_modal fallback_frames) = true.
Proof.
  split; [reflexivity|]. split; [reflexivity|].
  apply (dismiss_modal_closes_when_possible fallback_frames
           ("newsletter",
            frame_of "https://shop.example/popup"
                     [ (ANY_CLOSE_BUTTON, [element 13 true]) ])
           (element 13 true) []);
    try reflexivity.
  right; left; reflexivity.
Defined.

Lemma capture_result_witness :
  ses_header_text wheel_session = Ok (Some "CONGRATULATIONS!")
  /\ ses_win_text wheel_session = Ok (Some "10% OFF")
  /\ (exists rest, capture_result wheel_session = Some ("CONGRATULATIONS!" ++ rest)%string)
  /\ (exists before, capture_result wheel_session = Some (before ++ "10% OFF")%string).
Proof.
  split; [reflexivity|]. split; [reflexivity|].
  destruct (capture_result_keeps_what_was_read wheel_session) as [Hheader Hwin].
  split.
  - apply (Hheader "C"%char "ONGRATULATIONS!"); reflexivity.
  - apply (Hwin "10% OFF"); reflexivity.
Defined.
